(** * compare_service: the KPI comparison pipeline

    A shallow embedding of [run_comparison_pipeline] (compare_service.py)
    and the properties of its stages: file selection by name, dataset
    assembly, discrepancy columns, summary counters and the chart bundle.

    Conventions of the embedding.
    - Python [str] values are [string]s; a character is an [ascii].
    - Python [int]s are [Z]; the numbers held by sheet cells are exact
      rationals [Q] (equality of numbers is [Qeq]).
    - An exception raised inside the [try] block is the left injection of
      a sum carrying [str(e)]; the [except Exception] handler of the
      source turns it into the error triple.
    - The library calls are embedded by their documented behaviour:
      [ZipFile.extractall] and [pd.read_excel] by their outcome (the files
      found in the temporary directory, each either a parsed sheet or the
      exception raised when reading it), pandas column operations by their
      element-wise semantics with missing values ([NaN]), plotly figures
      by the data handed to their constructors.
    - File names are matched as on a POSIX file system (case-sensitive). *)

From Stdlib Require Import ZArith QArith Qabs List String Ascii Bool Lia.
From Stdlib Require Import Permutation Sorted DecimalString.
From Stdlib Require DecimalZ DecimalPos.
From Stdlib Require Import Lqa.
Import ListNotations.

Local Open Scope string_scope.
Local Open Scope list_scope.

(** ** Python primitives *)

Module Py.

(** [str(n)] for an [int]. *)
Definition str (n : Z) : string := NilZero.string_of_int (Z.to_int n).

(** [s[:n]] *)
Fixpoint slice_to (n : nat) (s : string) : string :=
  match n, s with
  | S n', String c s' => String c (slice_to n' s')
  | _, _ => EmptyString
  end.

(** [s[n:]] *)
Fixpoint slice_from (n : nat) (s : string) : string :=
  match n, s with
  | S n', String _ s' => slice_from n' s'
  | _, _ => s
  end.

(** [s.rfind('.')], [None] standing for -1. *)
Fixpoint rfind_dot (s : string) : option nat :=
  match s with
  | EmptyString => None
  | String c s' =>
      match rfind_dot s' with
      | Some i => Some (S i)
      | None => if Ascii.eqb c "." then Some O else None
      end
  end.

(** [s.endswith(suf)] *)
Definition endswith (suf s : string) : bool :=
  (String.length suf <=? String.length s)%nat
  && String.eqb (slice_from (String.length s - String.length suf) s) suf.

Definition is_alpha (c : ascii) : bool :=
  let n := nat_of_ascii c in
  ((65 <=? n) && (n <=? 90) || (97 <=? n) && (n <=? 122))%nat.

Definition is_digit (c : ascii) : bool :=
  let n := nat_of_ascii c in ((48 <=? n) && (n <=? 57))%nat.

(** An insertion-ordered [dict] with [str] keys: assigning to a key that is
    present replaces its value in place, a new key goes to the end. *)
Definition dict (V : Type) := list (string * V).

Fixpoint dict_set {V} (k : string) (v : V) (d : dict V) : dict V :=
  match d with
  | [] => [(k, v)]
  | (k', v') :: d' =>
      if String.eqb k k' then (k, v) :: d' else (k', v') :: dict_set k v d'
  end.

Fixpoint dict_get {V} (k : string) (d : dict V) : option V :=
  match d with
  | [] => None
  | (k', v') :: d' => if String.eqb k k' then Some v' else dict_get k d'
  end.

Definition keys {V} (d : dict V) : list string := map fst d.

End Py.

(** ** Paths of the extracted files *)

(** A path below the temporary directory: the directory part and the final
    component ([Path.name]). *)
Record Path := mkPath { parent : string; name : string }.

(** [str(file)] *)
Definition path_str (p : Path) : string := parent p ++ "/" ++ name p.

(** [Path.stem]: the final component without its last suffix. *)
Definition stem (p : Path) : string :=
  let n := name p in
  match Py.rfind_dot n with
  | Some i =>
      if ((0 <? i) && (i <? String.length n - 1))%nat
      then Py.slice_to i n else n
  | None => n
  end.

(** The pattern of [rglob("*.xlsx")] on a final component. *)
Definition glob_xlsx (p : Path) : bool := Py.endswith ".xlsx" (name p).

(** [re.match(r"[A-Za-z]{3}\d{4}", name)]: the pattern is anchored at the
    start of the name only. (A digit outside ASCII, which [\d] also
    accepts, never equals a character of [str(selected_year)], so the test
    of the loop is the same with ASCII digits.) *)
Definition re_match_month_year (s : string) : bool :=
  match s with
  | String a (String b (String c
      (String d1 (String d2 (String d3 (String d4 _)))))) =>
      Py.is_alpha a && Py.is_alpha b && Py.is_alpha c
      && Py.is_digit d1 && Py.is_digit d2 && Py.is_digit d3 && Py.is_digit d4
  | _ => false
  end.

(** ** Exceptions raised inside the [try] block *)

(** A computation that may raise; the left injection carries [str(e)]. *)
Definition Exc (A : Type) : Type := (string + A)%type.

Definition ret {A} (a : A) : Exc A := inr a.
Definition raise {A} (e : string) : Exc A := inl e.
Definition bind {A B} (m : Exc A) (k : A -> Exc B) : Exc B :=
  match m with
  | inl e => inl e
  | inr a => k a
  end.

Notation "x <- m ;; k" := (bind m (fun x => k))
  (at level 61, m at next level, right associativity).

(** ** Cells, columns and frames *)

(** The value of one cell: a number, a missing value (a blank), text, or a
    boolean (as in the [All_Match] column). *)
Inductive cell :=
| Num (q : Q)
| NaN
| Text (s : string)
| Bool (b : bool).

Inductive dtype := float64 | object | bool_.

Definition dtype_eqb (a b : dtype) : bool :=
  match a, b with
  | float64, float64 | object, object | bool_, bool_ => true
  | _, _ => false
  end.

(** A column: its dtype and its values in row order. *)
Record Series := mkSeries { dtype_of : dtype; values : list cell }.

(** A frame: the number of rows and the columns in insertion order. *)
Record DataFrame := mkDF { nrows : nat; cols : Py.dict Series }.

Definition isna (c : cell) : bool :=
  match c with NaN => true | _ => false end.

Definition is_text (c : cell) : bool :=
  match c with Text _ => true | _ => false end.

Definition is_bool (c : cell) : bool :=
  match c with Bool _ => true | _ => false end.

(** The number a cell stands for in arithmetic ([True] is 1). *)
Definition num_of (c : cell) : option Q :=
  match c with
  | Num q => Some q
  | Bool b => Some (if b then 1 else 0)%Q
  | _ => None
  end.

(** Equality of two non-missing cell values, as Python compares them. *)
Definition cell_eqb (x y : cell) : bool :=
  match x, y with
  | Text s, Text t => String.eqb s t
  | _, _ =>
      match num_of x, num_of y with
      | Some a, Some b => Qeq_bool a b
      | _, _ => false
      end
  end.

Definition KeyError (k : string) : string := "'" ++ k ++ "'".

(** [df[c]] *)
Definition get_col (df : DataFrame) (c : string) : Exc Series :=
  match Py.dict_get c (cols df) with
  | Some s => ret s
  | None => raise (KeyError c)
  end.

(** [df[c] = s] *)
Definition set_col (df : DataFrame) (c : string) (s : Series) : DataFrame :=
  mkDF (nrows df) (Py.dict_set c s (cols df)).

(** [c in df.columns] *)
Definition has_col (df : DataFrame) (c : string) : bool :=
  match Py.dict_get c (cols df) with Some _ => true | None => false end.

(** [df[c] = scalar]: the scalar is broadcast over the rows. *)
Definition set_scalar (df : DataFrame) (c : string) (s : string) : DataFrame :=
  set_col df c (mkSeries object (repeat (Text s) (nrows df))).

(** ** Reading a sheet *)

(** A parsed sheet: the header row and the data rows. *)
Record Sheet := mkSheet { header : list string; body : list (list cell) }.

(** What [pd.read_excel] does on a file: it returns a frame or raises. *)
Inductive Content :=
| Workbook (s : Sheet)
| Unreadable (err : string).

Definition infer_dtype (vs : list cell) : dtype :=
  if existsb is_text vs then object
  else if existsb is_bool vs
       then (if forallb is_bool vs then bool_ else object)
       else float64.

(** Column [j] of the data rows; a short row is padded with blanks. *)
Definition sheet_column (j : nat) (rows : list (list cell)) : list cell :=
  map (fun r => nth j r NaN) rows.

(** The columns of a sheet, left to right; of two columns with one name the
    first keeps the name (pandas renames the later one). *)
Fixpoint sheet_columns (j : nat) (hs : list string) (rows : list (list cell))
                       (acc : Py.dict Series) : Py.dict Series :=
  match hs with
  | [] => acc
  | h :: hs' =>
      let vs := sheet_column j rows in
      sheet_columns (S j) hs' rows
        (match Py.dict_get h acc with
         | Some _ => acc
         | None => acc ++ [(h, mkSeries (infer_dtype vs) vs)]
         end)
  end.

Definition read_excel (c : Content) : Exc DataFrame :=
  match c with
  | Unreadable err => raise err
  | Workbook s =>
      ret (mkDF (List.length (body s)) (sheet_columns 0 (header s) (body s) []))
  end.

(** ** [pd.concat(df_list, ignore_index=True)] *)

Definition add_name (acc : list string) (c : string) : list string :=
  if existsb (String.eqb c) acc then acc else acc ++ [c].

(** The union of the column names, in order of first appearance. *)
Definition union_columns (dfs : list DataFrame) : list string :=
  fold_left (fun acc df => fold_left add_name (Py.keys (cols df)) acc) dfs [].

(** The part of column [c] contributed by one frame: its own column, or
    missing values when the frame has no such column. *)
Definition concat_part (c : string) (df : DataFrame) : Series :=
  match Py.dict_get c (cols df) with
  | Some s => s
  | None => mkSeries float64 (repeat NaN (nrows df))
  end.

Definition common_dtype (ds : list dtype) : dtype :=
  match ds with
  | [] => object
  | d :: ds' => if forallb (dtype_eqb d) ds' then d else object
  end.

Definition concat_col (c : string) (dfs : list DataFrame) : Series :=
  mkSeries (common_dtype (map (fun df => dtype_of (concat_part c df)) dfs))
           (flat_map (fun df => values (concat_part c df)) dfs).

Definition concat (dfs : list DataFrame) : Exc DataFrame :=
  match dfs with
  | [] => raise "No objects to concatenate"
  | _ =>
      ret (mkDF (list_sum (map nrows dfs))
                (map (fun c => (c, concat_col c dfs)) (union_columns dfs)))
  end.

(** ** Row selection *)

(** Keep the entries of [l] whose mask bit is set. *)
Fixpoint select {A} (mask : list bool) (l : list A) : list A :=
  match mask, l with
  | b :: mask', x :: l' => if b then x :: select mask' l' else select mask' l'
  | _, _ => []
  end.

(** [df[mask]] *)
Definition filter_rows (df : DataFrame) (mask : list bool) : DataFrame :=
  mkDF (List.length (select mask (seq 0 (nrows df))))
       (map (fun cs => (fst cs, mkSeries (dtype_of (snd cs))
                                         (select mask (values (snd cs)))))
            (cols df)).

(** [series == s] for a string [s] *)
Definition eq_str (s : string) (c : cell) : bool :=
  match c with Text t => String.eqb t s | _ => false end.

(** [df.empty] *)
Definition empty (df : DataFrame) : bool :=
  (nrows df =? 0)%nat || match cols df with [] => true | _ => false end.

(** ** Column arithmetic *)

(** The Python type of a cell value, as exception messages name it (an
    integral number read from a sheet is an [int]). *)
Definition py_type (c : cell) : string :=
  match c with
  | Text _ => "str"
  | Bool _ => "bool"
  | NaN => "float"
  | Num q => if (Qden (Qred q) =? 1)%positive then "int" else "float"
  end.

Definition sub_TypeError (x y : cell) : string :=
  "unsupported operand type(s) for -: '" ++ py_type x ++ "' and '"
  ++ py_type y ++ "'".

(** One element of [a - b]: a missing operand gives a missing result (in an
    object column pandas leaves the pairs with a missing operand out of the
    subtraction), text cannot be subtracted. *)
Definition sub_cell (x y : cell) : Exc cell :=
  if isna x || isna y then ret NaN
  else match num_of x, num_of y with
       | Some a, Some b => ret (Num (a - b))
       | _, _ => raise (sub_TypeError x y)
       end.

Fixpoint sub_cells (xs ys : list cell) : Exc (list cell) :=
  match xs, ys with
  | x :: xs', y :: ys' =>
      d <- sub_cell x y ;;
      ds <- sub_cells xs' ys' ;;
      ret (d :: ds)
  | _, _ => ret []
  end.

Definition join_dtype (a b : dtype) : dtype :=
  match a, b with
  | object, _ | _, object => object
  | _, _ => float64
  end.

(** [a - b] on two columns. *)
Definition sub (a b : Series) : Exc Series :=
  match dtype_of a, dtype_of b with
  | bool_, bool_ =>
      raise ("numpy boolean subtract, the `-` operator, is not supported, "
             ++ "use the bitwise_xor, the `^` operator, or the logical_xor "
             ++ "function instead.")%string
  | da, db =>
      vs <- sub_cells (values a) (values b) ;;
      ret (mkSeries (join_dtype da db) vs)
  end.

Definition abs_cell (c : cell) : Exc cell :=
  match c with
  | Num q => ret (Num (Qabs q))
  | NaN => ret NaN
  | Bool b => ret (Num (if b then 1 else 0)%Q)
  | Text _ => raise "bad operand type for abs(): 'str'"
  end.

Fixpoint abs_cells (vs : list cell) : Exc (list cell) :=
  match vs with
  | [] => ret []
  | v :: vs' =>
      a <- abs_cell v ;;
      r <- abs_cells vs' ;;
      ret (a :: r)
  end.

(** [s.abs()] *)
Definition abs (s : Series) : Exc Series :=
  vs <- abs_cells (values s) ;;
  ret (mkSeries (dtype_of s) vs).

(** ** Row-wise and column-wise reductions *)

(** The distinct values of a list, first occurrences kept. *)
Fixpoint unique (vs : list cell) : list cell :=
  match vs with
  | [] => []
  | v :: vs' => v :: filter (fun w => negb (cell_eqb v w)) (unique vs')
  end.

(** [nunique] of one row: the number of distinct values, missing values
    not counted ([dropna=True]). *)
Definition nunique (row : list cell) : nat :=
  List.length (unique (filter (fun c => negb (isna c)) row)).

(** The values of row [i] in a list of columns. *)
Definition row_at (cs : list Series) (i : nat) : list cell :=
  map (fun s => nth i (values s) NaN) cs.

(** [df[names]] as a list of columns. *)
Fixpoint get_cols (df : DataFrame) (names : list string) : Exc (list Series) :=
  match names with
  | [] => ret []
  | c :: names' =>
      s <- get_col df c ;;
      r <- get_cols df names' ;;
      ret (s :: r)
  end.

(** [frame.nunique(axis=1) == 1] *)
Definition nunique_is_one (n : nat) (cs : list Series) : Series :=
  mkSeries bool_
    (map (fun i => Bool (nunique (row_at cs i) =? 1)%nat) (seq 0 n)).

(** The numbers among the values, missing values skipped. *)
Definition nums (vs : list cell) : list Q :=
  flat_map (fun c => match num_of c with Some q => [q] | None => [] end) vs.

Definition Qsum (qs : list Q) : Q := fold_right Qplus 0%Q qs.

(** The mean with [skipna=True]: missing when no number is left. *)
Definition mean_cells (vs : list cell) : cell :=
  match nums vs with
  | [] => NaN
  | qs => Num (Qsum qs / inject_Z (Z.of_nat (List.length qs)))
  end.

(** [s.mean()] *)
Definition mean (s : Series) : cell := mean_cells (values s).

Definition Qmax2 (a b : Q) : Q := if Qle_bool a b then b else a.

(** The maximum with [skipna=True]: missing when no number is left. *)
Definition max_cells (vs : list cell) : cell :=
  match nums vs with
  | [] => NaN
  | q :: qs => Num (fold_left Qmax2 qs q)
  end.

(** [frame.max(axis=1)] *)
Definition max_axis1 (n : nat) (cs : list Series) : Series :=
  mkSeries (fold_right join_dtype float64 (map dtype_of cs))
           (map (fun i => max_cells (row_at cs i)) (seq 0 n)).

(** [s.sum()] of a boolean column: the number of [True]. *)
Definition sum_bool (s : Series) : Z :=
  Z.of_nat (List.length (filter (fun c => match c with Bool true => true | _ => false end)
                           (values s))).

(** ** [nlargest] *)

(** [x] goes before [y] in descending order of the key, a missing key last. *)
Definition key_geb (x y : cell) : bool :=
  match num_of x, num_of y with
  | Some a, Some b => Qle_bool b a
  | Some _, None => true
  | None, Some _ => false
  | None, None => true
  end.

(** Insertion of a position in front of the first entry it is not smaller
    than: among equal keys the earlier row stays first ([keep="first"]). *)
Fixpoint insert_desc (x : nat * cell) (l : list (nat * cell)) : list (nat * cell) :=
  match l with
  | [] => [x]
  | y :: l' =>
      if key_geb (snd x) (snd y) then x :: y :: l' else y :: insert_desc x l'
  end.

Definition sort_desc (l : list (nat * cell)) : list (nat * cell) :=
  fold_right insert_desc [] l.

(** The positions of the [n] largest keys, largest first. *)
Definition nlargest_positions (n : nat) (keys : list cell) : list nat :=
  map fst (firstn n (sort_desc (combine (seq 0 (List.length keys)) keys))).

(** [df.take(positions)] *)
Definition take (df : DataFrame) (ps : list nat) : DataFrame :=
  mkDF (List.length ps)
       (map (fun cs => (fst cs, mkSeries (dtype_of (snd cs))
                                  (map (fun p => nth p (values (snd cs)) NaN) ps)))
            (cols df)).

(** [df.nlargest(n, column)]: only a numeric column can be ranked. *)
Definition nlargest (n : nat) (column : string) (df : DataFrame) : Exc DataFrame :=
  s <- get_col df column ;;
  match dtype_of s with
  | object =>
      raise ("Column '" ++ column ++ "' has dtype object, "
             ++ "cannot use method 'nlargest' with this dtype")%string
  | _ => ret (take df (nlargest_positions n (values s)))
  end.

(** [df[names]] as a frame. *)
Definition project (df : DataFrame) (names : list string) : Exc DataFrame :=
  cs <- get_cols df names ;;
  ret (mkDF (nrows df) (combine names cs)).

(** ** [groupby] *)

(** The order of group keys: numbers by value, text by code points, numbers
    before text. *)
Definition cell_ltb (x y : cell) : bool :=
  match x, y with
  | Text s, Text t => String.ltb s t
  | Text _, _ => false
  | _, Text _ => true
  | _, _ =>
      match num_of x, num_of y with
      | Some a, Some b => negb (Qle_bool b a)
      | _, _ => false
      end
  end.

Fixpoint insert_by {A} (ltb : A -> A -> bool) (x : A) (l : list A) : list A :=
  match l with
  | [] => [x]
  | y :: l' => if ltb y x then y :: insert_by ltb x l' else x :: l
  end.

Definition sort_by {A} (ltb : A -> A -> bool) (l : list A) : list A :=
  fold_right (insert_by ltb) [] l.

(** The group keys of a column: its distinct values in sorted order, missing
    values dropped. *)
Definition group_keys (vs : list cell) : list cell :=
  sort_by cell_ltb (unique (filter (fun c => negb (isna c)) vs)).

(** [df.groupby(by)[names].mean().reset_index()]: one row per key, the key
    first, then the mean of each named column over the rows of the group. *)
Definition groupby_mean (by_ : Series) (cs : list Series) : list (list cell) :=
  map (fun k =>
         let mask := map (cell_eqb k) (values by_) in
         k :: map (fun s => mean_cells (select mask (values s))) cs)
      (group_keys (values by_)).

Definition pair_eqb (x y : cell * cell) : bool :=
  cell_eqb (fst x) (fst y) && cell_eqb (snd x) (snd y).

Definition pair_ltb (x y : cell * cell) : bool :=
  cell_ltb (fst x) (fst y)
  || cell_eqb (fst x) (fst y) && cell_ltb (snd x) (snd y).

Fixpoint unique_pairs (ps : list (cell * cell)) : list (cell * cell) :=
  match ps with
  | [] => []
  | p :: ps' => p :: filter (fun q => negb (pair_eqb p q)) (unique_pairs ps')
  end.

(** [df.groupby([a, b])[name].mean().reset_index()] *)
Definition groupby2_mean (a b : Series) (s : Series) : list (cell * cell * cell) :=
  let ps := combine (values a) (values b) in
  map (fun k =>
         let mask := map (pair_eqb k) ps in
         (fst k, snd k, mean_cells (select mask (values s))))
      (sort_by pair_ltb
         (unique_pairs
            (filter (fun p => negb (isna (fst p)) && negb (isna (snd p))) ps))).

(** ** The values returned *)

(** The values interpolated into the summary text, in the order of its
    lines (the text renders the rates as percentages and the averages with
    two decimals). *)
Record Summary := mkSummary {
  summary_year : Z;
  summary_country : string;
  total : Z;
  all_match : Z;
  all_match_rate : Q;
  mismatch : Z;
  mismatch_rate : Q;
  avg_diff_reg_grp : cell;
  avg_diff_reg_act : cell;
  avg_diff_grp_act : cell
}.

(** A figure, by the data given to its plotly constructor. *)
Inductive Figure :=
| Pie (names : list string) (vals : list Z)
| Bar (comparison : list string) (avg_diff : list cell)
| Table (head : list string) (cells : list (list cell))
| Imshow (index : list cell) (columns : list string) (z : list (list cell))
| Line (points : list (cell * cell * cell)).

(** The triple [(plots, summary, error)]. *)
Definition Result : Type :=
  (option (Py.dict Figure) * option Summary * option string)%type.

(** ** The pipeline *)

Definition KPI_COLS : list string :=
  ["Reported Value to Regulator"; "Reported Value to Group";
   "Actual Value MAPS Networks"].

(** [KPI_COLS[i]] *)
Definition KPI (i : nat) : string := nth i KPI_COLS "".

Definition DIFF_COLS : list string :=
  ["Diff_Reg_vs_Grp"; "Diff_Reg_vs_Act"; "Diff_Grp_vs_Act"].

(** A file found below the temporary directory after extraction, with what
    reading it as a workbook gives. *)
Record ExtractedFile := mkFile { file_path : Path; content : Content }.

(** The outcome of writing the bytes and extracting them: [ZipFile] raises,
    or the archive is unpacked; the files are listed in the order in which
    [rglob] yields them. *)
Inductive Extraction :=
| BadArchive (err : string)
| Extracted (files : list ExtractedFile).

(** [list(Path(tmpdir).rglob("*.xlsx"))] *)
Definition excel_files (files : list ExtractedFile) : list ExtractedFile :=
  filter (fun f => glob_xlsx (file_path f)) files.

(** The test made on one file by the loop that fills [year_files]. *)
Definition selected (selected_year : Z) (file : ExtractedFile) : bool :=
  let name := stem (file_path file) in
  re_match_month_year name
  && String.eqb (Py.slice_from 3 name) (Py.str selected_year).

(** The month label of a file: [name[:3]]. *)
Definition month_str (file : ExtractedFile) : string :=
  Py.slice_to 3 (stem (file_path file)).

(** One turn of the loop over [excel_files]. The dictionary keeps the file
    where the source keeps its path, which is read back when loading. *)
Definition year_files_step (selected_year : Z) (d : Py.dict ExtractedFile)
                           (file : ExtractedFile) : Py.dict ExtractedFile :=
  if selected selected_year file then Py.dict_set (month_str file) file d else d.

Definition year_files (files : list ExtractedFile) (selected_year : Z)
  : Py.dict ExtractedFile :=
  fold_left (year_files_step selected_year) (excel_files files) [].

(** The loop over [year_files.items()]: read, stamp the month, collect. *)
Fixpoint load (items : list (string * ExtractedFile)) : Exc (list DataFrame) :=
  match items with
  | [] => ret []
  | (m, file) :: items' =>
      df_month <- read_excel (content file) ;;
      rest <- load items' ;;
      ret (set_scalar df_month "Month" m :: rest)
  end.

(** Lines 48-56: concatenate, ensure a [Country] column, filter. *)
Definition assemble (dfs : list DataFrame) (country : string) : Exc DataFrame :=
  df <- concat dfs ;;
  let df := if has_col df "Country" then df
            else set_scalar df "Country" "Unknown" in
  if String.eqb country "All Countries" then ret df
  else
    c <- get_col df "Country" ;;
    ret (filter_rows df (map (eq_str country) (values c))).

(** [(df[a] - df[b]).abs()] *)
Definition abs_diff (df : DataFrame) (a b : string) : Exc Series :=
  x <- get_col df a ;;
  y <- get_col df b ;;
  d <- sub x y ;;
  abs d.

(** Lines 62-65: the three difference columns and the agreement flag. *)
Definition add_discrepancies (df : DataFrame) : Exc DataFrame :=
  d01 <- abs_diff df (KPI 0) (KPI 1) ;;
  let df := set_col df "Diff_Reg_vs_Grp" d01 in
  d02 <- abs_diff df (KPI 0) (KPI 2) ;;
  let df := set_col df "Diff_Reg_vs_Act" d02 in
  d12 <- abs_diff df (KPI 1) (KPI 2) ;;
  let df := set_col df "Diff_Grp_vs_Act" d12 in
  ks <- get_cols df KPI_COLS ;;
  ret (set_col df "All_Match" (nunique_is_one (nrows df) ks)).

(** Lines 68-79: the summary. *)
Definition summarize (df : DataFrame) (selected_year : Z) (country : string)
  : Exc Summary :=
  let total := Z.of_nat (nrows df) in
  am <- get_col df "All_Match" ;;
  let all_match := sum_bool am in
  let mismatch := (total - all_match)%Z in
  d01 <- get_col df "Diff_Reg_vs_Grp" ;;
  d02 <- get_col df "Diff_Reg_vs_Act" ;;
  d12 <- get_col df "Diff_Grp_vs_Act" ;;
  ret (mkSummary selected_year country total
         all_match (inject_Z all_match / inject_Z total)
         mismatch (inject_Z mismatch / inject_Z total)
         (mean d01) (mean d02) (mean d12)).

(** Lines 109-112: the rows of the table of largest mismatches. *)
Definition top_mismatches (df : DataFrame) : Exc DataFrame :=
  top <- nlargest 10 "Max_Diff" df ;;
  project top (["Country"; "Month"] ++ KPI_COLS ++ ["Max_Diff"]).

(** Lines 81-141: the five figures, added to [plots] one after the other. *)
Definition build_plots (df : DataFrame) (s : Summary)
  : Exc (Py.dict Figure) :=
  let plots : Py.dict Figure := [] in
  let plots := Py.dict_set "agreement_pie"
                 (Pie ["All Match"; "Mismatch"] [all_match s; mismatch s]) plots in
  ds <- get_cols df DIFF_COLS ;;
  let plots := Py.dict_set "pairwise_diff_bar"
                 (Bar ["Reg vs Group"; "Reg vs Actual"; "Group vs Actual"]
                      (map mean ds)) plots in
  let df := set_col df "Max_Diff" (max_axis1 (nrows df) ds) in
  top <- top_mismatches df ;;
  let plots := Py.dict_set "top_mismatches_table"
                 (Table (Py.keys (cols top)) (map (fun cs => values (snd cs)) (cols top)))
                 plots in
  by_country <- get_col df "Country" ;;
  ds <- get_cols df DIFF_COLS ;;
  let heatmap_data := groupby_mean by_country ds in
  let plots := Py.dict_set "deviation_heatmap"
                 (Imshow (map (fun r => hd NaN r) heatmap_data) DIFF_COLS
                         (map (fun r => tl r) heatmap_data)) plots in
  by_month <- get_col df "Month" ;;
  am <- get_col df "All_Match" ;;
  let plots := Py.dict_set "monthly_trend"
                 (Line (groupby2_mean by_month by_country am)) plots in
  ret plots.

(** The body of the [try] block once the archive is unpacked. *)
Definition pipeline_body (files : list ExtractedFile) (selected_year : Z)
                         (country : string) : Exc Result :=
  let yf := year_files files selected_year in
  match yf with
  | [] =>
      ret (None, None,
           Some ("No files found for year " ++ Py.str selected_year ++ ".")%string)
  | _ =>
      df_list <- load yf ;;
      df <- assemble df_list country ;;
      if empty df then
        ret (None, None,
             Some ("No data found for " ++ country ++ " in "
                   ++ Py.str selected_year ++ ".")%string)
      else
        df <- add_discrepancies df ;;
        summary <- summarize df selected_year country ;;
        plots <- build_plots df summary ;;
        ret (Some plots, Some summary, None)
  end.

(** [run_comparison_pipeline(zip_bytes, selected_year, country)] *)
Definition run_comparison_pipeline (zip_bytes : Extraction) (selected_year : Z)
                                   (country : string) : Result :=
  let attempt :=
    match zip_bytes with
    | BadArchive err => raise err
    | Extracted files => pipeline_body files selected_year country
    end in
  match attempt with
  | inr r => r
  | inl e => (None, None, Some ("Processing error: " ++ e)%string)
  end.

(** ** The naming convention in the words of the specification *)

(** The convention as the specification words it, to be compared with
    [selected]: the base name is exactly three letters followed by exactly
    four digits, and the four digits are the year in decimal. *)
Definition spec_month_year_name (base : string) (year : Z) : bool :=
  match base with
  | String a (String b (String c
      (String d1 (String d2 (String d3 (String d4 EmptyString)))))) =>
      Py.is_alpha a && Py.is_alpha b && Py.is_alpha c
      && Py.is_digit d1 && Py.is_digit d2 && Py.is_digit d3 && Py.is_digit d4
      && String.eqb (String d1 (String d2 (String d3 (String d4 EmptyString))))
                    (Py.str year)
  | _ => false
  end.

(** The loop over the extracted files executes the assignment
    [year_files[month_str] = str(file)] for [file]. *)
Definition added (files : list ExtractedFile) (selected_year : Z)
                 (file : ExtractedFile) : Prop :=
  In file (excel_files files) /\ selected selected_year file = true.

(** The cell of column [c] in row [i]. *)
Definition cell_at (df : DataFrame) (c : string) (i : nat) : option cell :=
  match Py.dict_get c (cols df) with
  | Some s => nth_error (values s) i
  | None => None
  end.

(** ** Predicates used by the properties *)

(** The keys of the chart bundle. *)
Definition PLOT_KEYS : list string :=
  ["agreement_pie"; "pairwise_diff_bar"; "top_mismatches_table";
   "deviation_heatmap"; "monthly_trend"].





(** ** Sample inputs *)



(** Two months of 2023: five agreeing records, then five records with
    (100, 90, 100). *)
Definition two_month_archive : Extraction :=
  Extracted
    [mkFile (mkPath "" "Jan2023.xlsx")
            (Workbook (mkSheet KPI_COLS (repeat [Num 7; Num 7; Num 7] 5)));
     mkFile (mkPath "" "Feb2023.xlsx")
            (Workbook (mkSheet KPI_COLS (repeat [Num 100; Num 90; Num 100] 5)))].

(** A mapping with one file, which has no country column. *)
Definition no_country_items : Py.dict ExtractedFile :=
  [("Jan", mkFile (mkPath "" "Jan2023.xlsx")
                  (Workbook (mkSheet KPI_COLS [[Num 1; Num 2; Num 3]])))].

(** A file with a country column, and one without. *)
Definition jan_with_country : ExtractedFile :=
  mkFile (mkPath "" "Jan2023.xlsx")
         (Workbook (mkSheet ("Country" :: KPI_COLS)
                            [[Text "France"; Num 1; Num 1; Num 1]])).

Definition feb_without_country : ExtractedFile :=
  mkFile (mkPath "" "Feb2023.xlsx")
         (Workbook (mkSheet KPI_COLS [[Num 2; Num 2; Num 2]])).

(** Two files whose names differ only in the case of the letters. *)
Definition upper_jan : ExtractedFile :=
  mkFile (mkPath "" "JAN2023.xlsx")
         (Workbook (mkSheet KPI_COLS [[Num 1; Num 1; Num 1]])).

Definition lower_jan : ExtractedFile :=
  mkFile (mkPath "" "jan2023.xlsx")
         (Workbook (mkSheet KPI_COLS [[Num 2; Num 2; Num 2]; [Num 3; Num 3; Num 3]])).





(** ** Further predicates *)

(** Every column of the frame has one value per row. *)
Definition well_formed (df : DataFrame) : Prop :=
  Forall (fun cs => List.length (values (snd cs)) = nrows df) (cols df).



(** The number of data rows of the sheet held by a file. *)
Definition sheet_rows (file : ExtractedFile) : nat :=
  match content file with
  | Workbook s => List.length (body s)
  | Unreadable _ => 0
  end.


(** ** The HTTP boundary (app.py) *)

(** An uploaded file: its name and what writing and extracting its bytes
    gives. *)
Record Upload := mkUpload { filename : string; upload : Extraction }.

(** The parts of the request read by the route: [request.files] and
    [request.form]. *)
Record Request := mkRequest {
  request_files : Py.dict Upload;
  request_form : Py.dict string
}.

(** The JSON body of a response: [{"error": ...}] or
    [{"summary": ..., "plots": ...}]. *)
Inductive Body :=
| ErrorBody (error : string)
| ResultBody (summary : option Summary) (plots : option (Py.dict Figure)).

(** The body and the status code. *)
Definition Response : Type := (Body * Z)%type.

(** The truth value of an optional [str]: [None] and [""] are false. *)
Definition truthy (s : option string) : bool :=
  match s with
  | Some (String _ _) => true
  | _ => false
  end.

(** [request.form.get("country", "All Countries")] *)
Definition form_country (request : Request) : string :=
  match Py.dict_get "country" (request_form request) with
  | Some c => c
  | None => "All Countries"
  end.

Section Boundary.

(** The builtin [int] on a [str]; [None] stands for [ValueError]. *)
Variable int : string -> option Z.

(** [compare_kpis()] on the current request. *)
Definition compare_kpis (request : Request) : Response :=
  match Py.dict_get "file" (request_files request) with
  | None => (ErrorBody "No ZIP file uploaded", 400%Z)
  | Some zip_file =>
      if String.eqb (filename zip_file) "" then
        (ErrorBody "No selected file", 400%Z)
      else
        let year := Py.dict_get "year" (request_form request) in
        let country := form_country request in
        match year with
        | Some (String c0 rest) =>
            match int (String c0 rest) with
            | None => (ErrorBody "'year' must be an integer", 400%Z)
            | Some year =>
                match run_comparison_pipeline (upload zip_file) year country with
                | (plot_data, summary, error) =>
                    match error with
                    | Some (String e0 e) => (ErrorBody (String e0 e), 400%Z)
                    | _ => (ResultBody summary plot_data, 200%Z)
                    end
                end
            end
        | _ => (ErrorBody "Missing 'year' parameter", 400%Z)
        end
  end.

End Boundary.

(** A reader of plain decimal numerals, which [int] reads the same way. *)
Definition decimal_int (s : string) : option Z :=
  option_map Z.of_int (NilZero.int_of_string s).

(** ** Further sample inputs *)

(** A mapping with one file of three records from two countries. *)
Definition two_country_items : Py.dict ExtractedFile :=
  [("Jan", mkFile (mkPath "" "Jan2023.xlsx")
             (Workbook (mkSheet ("Country" :: KPI_COLS)
                          [[Text "France"; Num 1; Num 1; Num 1];
                           [Text "Spain"; Num 2; Num 3; Num 2];
                           [Text "France"; Num 4; Num 4; Num 5]])))].

(** The same file as an archive. *)
Definition two_country_archive : list ExtractedFile := map snd two_country_items.

(** An archive whose only sheet has a header and no data rows. *)
Definition header_only_archive : list ExtractedFile :=
  [mkFile (mkPath "" "Jan2023.xlsx") (Workbook (mkSheet KPI_COLS []))].

(** An archive whose only sheet lacks the second KPI column. *)
Definition missing_column_archive : list ExtractedFile :=
  [mkFile (mkPath "" "Jan2023.xlsx")
          (Workbook (mkSheet [KPI 0; KPI 2] [[Num 1; Num 1]]))].

(** An archive with a readable and an unreadable workbook. *)
Definition half_readable_archive : list ExtractedFile :=
  [mkFile (mkPath "" "Jan2023.xlsx")
          (Workbook (mkSheet KPI_COLS [[Num 1; Num 1; Num 1]]));
   mkFile (mkPath "" "Feb2023.xlsx") (Unreadable "Excel file format cannot be determined")].

(** The dataset assembled from a sheet with a blank cell. *)
Definition mixed_frame : DataFrame :=
  set_scalar
    (set_scalar
       (mkDF 2 [(KPI 0, mkSeries float64 [Num 100; Num 5]);
                (KPI 1, mkSeries float64 [Num 100; Num 9]);
                (KPI 2, mkSeries float64 [NaN; Num 7])])
       "Month" "Jan")
    "Country" "Unknown".

(** A request with an archive of two months and the given year. *)
Definition sample_request (year : string) : Request :=
  mkRequest [("file", mkUpload "reports.zip" two_month_archive)]
            [("year", year)].


(** * Properties *)

(** ** Dictionaries *)

Section DictFacts.
Context {V : Type}.
Implicit Types (d : Py.dict V) (k : string) (v : V).

Lemma dict_get_set k k' v d :
  Py.dict_get k (Py.dict_set k' v d)
  = if String.eqb k k' then Some v else Py.dict_get k d.
Proof.
  induction d as [|[k0 v0] d IH]; simpl.
  - reflexivity.
  - destruct (String.eqb_spec k' k0) as [->|Hne]; simpl.
    + destruct (String.eqb k k0); reflexivity.
    + rewrite IH. destruct (String.eqb_spec k k0) as [->|Hne'].
      * destruct (String.eqb_spec k0 k') as [<-|_]; [contradiction|reflexivity].
      * reflexivity.
Qed.

Lemma dict_set_not_nil k v d : Py.dict_set k v d <> [].
Proof.
  destruct d as [|[k0 v0] d]; simpl; [discriminate|].
  destruct (String.eqb k k0); discriminate.
Qed.

Lemma dict_get_In k v d : Py.dict_get k d = Some v -> In (k, v) d.
Proof.
  induction d as [|[k0 v0] d IH]; simpl; [discriminate|].
  destruct (String.eqb_spec k k0) as [->|Hne].
  - intros [= ->]. now left.
  - intros H. right. auto.
Qed.

Lemma dict_get_app_None k d d' :
  Py.dict_get k d = None -> Py.dict_get k (d ++ d') = Py.dict_get k d'.
Proof.
  induction d as [|[k0 v0] d IH]; simpl; [reflexivity|].
  destruct (String.eqb k k0); [discriminate|auto].
Qed.

End DictFacts.

(** ** Decimal representation of the year *)

Lemma str_negative (y : Z) :
  (y < 0)%Z -> exists r, Py.str y = String "-" r.
Proof.
  destruct y as [|p|p]; try lia. intros _.
  unfold Py.str. simpl. eexists. reflexivity.
Qed.

Lemma str_at_most_four_digits (y : Z) :
  (0 <= y <= 9999)%Z -> (String.length (Py.str y) <= 4)%nat.
Proof.
  intros Hy.
  assert (Hall : forallb (fun n => String.length (Py.str (Z.of_nat n)) <=? 4)%nat
                         (seq 0 (Z.to_nat 10000)) = true)
    by (vm_compute; reflexivity).
  rewrite forallb_forall in Hall.
  specialize (Hall (Z.to_nat y)).
  rewrite Z2Nat.id in Hall by lia.
  apply Nat.leb_le, Hall, in_seq. lia.
Qed.

Lemma minus_not_digit : Py.is_digit "-" = false.
Proof. reflexivity. Qed.

(** For a year of at most four digits the test of the loop is the naming
    convention of the specification. *)
Lemma selected_spec (y : Z) (file : ExtractedFile) :
  (y <= 9999)%Z ->
  selected y file = spec_month_year_name (stem (file_path file)) y.
Proof.
  intros Hy. unfold selected.
  destruct (stem (file_path file)) as [|a [|b [|c [|d1 [|d2 [|d3 [|d4 rest]]]]]]];
    try reflexivity.
  cbn [re_match_month_year spec_month_year_name Py.slice_from].
  destruct rest as [|r rest]; [reflexivity|].
  destruct (Py.is_alpha a && Py.is_alpha b && Py.is_alpha c && Py.is_digit d1
            && Py.is_digit d2 && Py.is_digit d3 && Py.is_digit d4) eqn:Hpat;
    [|reflexivity].
  cbn [andb].
  destruct (String.eqb_spec
              (String d1 (String d2 (String d3 (String d4 (String r rest)))))
              (Py.str y)) as [Heq|]; [|reflexivity].
  exfalso.
  destruct (Z.lt_ge_cases y 0) as [Hneg|Hpos].
  - destruct (str_negative y Hneg) as [r' Hr]. rewrite Hr in Heq.
    injection Heq as -> _.
    rewrite minus_not_digit in Hpat.
    repeat rewrite ?andb_false_r, ?andb_false_l in Hpat. discriminate.
  - pose proof (str_at_most_four_digits y (conj Hpos Hy)) as Hlen.
    rewrite <- Heq in Hlen. simpl in Hlen. lia.
Qed.

(** ** The month-to-file mapping *)

Section YearFiles.
Variable selected_year : Z.

Let step := year_files_step selected_year.

Lemma fold_step_get (l : list ExtractedFile) (d : Py.dict ExtractedFile) k v :
  Py.dict_get k (fold_left step l d) = Some v ->
  Py.dict_get k d = Some v
  \/ (In v l /\ selected selected_year v = true /\ month_str v = k).
Proof.
  revert d. induction l as [|f l IH]; simpl; intros d H; [now left|].
  apply IH in H. destruct H as [H|(Hin & Hs & Hm)].
  - unfold step, year_files_step in H.
    destruct (selected selected_year f) eqn:Hsel; [|now left].
    rewrite dict_get_set in H.
    destruct (String.eqb_spec k (month_str f)) as [->|_]; [|now left].
    injection H as <-. right. auto.
  - right. auto.
Qed.

Lemma fold_step_keeps (l : list ExtractedFile) (d : Py.dict ExtractedFile) k :
  Py.dict_get k d <> None -> Py.dict_get k (fold_left step l d) <> None.
Proof.
  revert d. induction l as [|f l IH]; simpl; intros d H; [exact H|].
  apply IH. unfold step, year_files_step.
  destruct (selected selected_year f); [|exact H].
  rewrite dict_get_set. destruct (String.eqb k (month_str f)); [discriminate|exact H].
Qed.

Lemma fold_step_has (l : list ExtractedFile) (d : Py.dict ExtractedFile) f :
  In f l -> selected selected_year f = true ->
  Py.dict_get (month_str f) (fold_left step l d) <> None.
Proof.
  revert d. induction l as [|g l IH]; simpl; intros d Hin Hsel;
    [contradiction|]. destruct Hin as [->|Hin].
  - apply fold_step_keeps. unfold step, year_files_step. rewrite Hsel.
    rewrite dict_get_set, String.eqb_refl. discriminate.
  - now apply IH.
Qed.

End YearFiles.

Lemma no_files_error (files : list ExtractedFile) (y : Z) (country : string) :
  year_files files y = [] ->
  run_comparison_pipeline (Extracted files) y country
  = (None, None, Some ("No files found for year " ++ Py.str y ++ ".")%string).
Proof.
  intros H. unfold run_comparison_pipeline, pipeline_body. rewrite H. reflexivity.
Qed.

Lemma added_iff (files : list ExtractedFile) (y : Z) (file : ExtractedFile) :
  added files y file
  <-> In file files /\ glob_xlsx (file_path file) = true
      /\ selected y file = true.
Proof.
  unfold added, excel_files. rewrite filter_In. tauto.
Qed.

Lemma year_files_get (files : list ExtractedFile) (y : Z) k v :
  Py.dict_get k (year_files files y) = Some v ->
  added files y v /\ month_str v = k.
Proof.
  unfold year_files. intros H.
  apply fold_step_get in H. destruct H as [H|(Hin & Hsel & Hm)];
    [discriminate|].
  split; [split; assumption|assumption].
Qed.

Lemma year_files_has (files : list ExtractedFile) (y : Z) file :
  added files y file ->
  exists v, Py.dict_get (month_str file) (year_files files y) = Some v.
Proof.
  intros [Hin Hsel]. unfold year_files.
  pose proof (fold_step_has y _ [] file Hin Hsel) as H.
  destruct (Py.dict_get _ _) as [v|]; [now exists v|contradiction].
Qed.

(** C3 (amended). For every extracted file and every target year of at most
    four digits ([y <= 9999]), the loop adds the file to the month-to-path
    mapping if and only if its name matches [*.xlsx] and its base name is
    exactly three letters followed by exactly four digits that are the
    decimal representation of the year. The key under which a file is
    stored is the first three characters of its base name, every added
    file has its key in the mapping, and when the mapping is empty the
    pipeline returns the error that names the year. *)
Theorem year_files_selection (files : list ExtractedFile) (y : Z) :
  (y <= 9999)%Z ->
  (forall file, In file files ->
     (added files y file
      <-> glob_xlsx (file_path file) = true
          /\ spec_month_year_name (stem (file_path file)) y = true))
  /\ (forall file, added files y file ->
        exists v, Py.dict_get (Py.slice_to 3 (stem (file_path file)))
                              (year_files files y) = Some v)
  /\ (forall k v, Py.dict_get k (year_files files y) = Some v ->
        added files y v /\ k = Py.slice_to 3 (stem (file_path v)))
  /\ (year_files files y = [] ->
      forall country,
        run_comparison_pipeline (Extracted files) y country
        = (None, None,
           Some ("No files found for year " ++ Py.str y ++ ".")%string)).
Proof.
  intros Hy. split; [|split; [|split]].
  - intros file Hin. rewrite added_iff, (selected_spec y file Hy). tauto.
  - intros file Ha. exact (year_files_has files y file Ha).
  - intros k v H. apply year_files_get in H. destruct H as [Ha Hm].
    split; [exact Ha | symmetry; exact Hm].
  - intros H country. now apply no_files_error.
Qed.

Lemma year_files_selection_witness :
  let jan := mkFile (mkPath "reports" "Jan2023.xlsx") (Unreadable "") in
  (2023 <= 9999)%Z
  /\ (added [jan] 2023 jan
      <-> glob_xlsx (file_path jan) = true
          /\ spec_month_year_name (stem (file_path jan)) 2023 = true).
Proof.
  intros jan. split; [lia|].
  apply (year_files_selection [jan] 2023); [lia | left; reflexivity].
Defined.

(** C3 as stated fails: with the year 20230 the file [Jan20230.xlsx] is
    added although its base name is not three letters followed by exactly
    four digits. *)
Lemma year_files_selection_counterexample :
  ~ (forall files y file,
       In file files ->
       (added files y file
        <-> spec_month_year_name (stem (file_path file)) y = true)).
Proof.
  intros H.
  pose (f := mkFile (mkPath "" "Jan20230.xlsx") (Unreadable "")).
  destruct (H [f] 20230%Z f (or_introl eq_refl)) as [Hadd _].
  assert (Ha : added [f] 20230 f).
  { split; [left; reflexivity | vm_compute; reflexivity]. }
  specialize (Hadd Ha). vm_compute in Hadd. discriminate.
Qed.

(** A file whose base name follows the convention but whose name does not
    match [*.xlsx] is not added either. *)
Lemma csv_not_added :
  let g := mkFile (mkPath "" "Jan2023.csv") (Unreadable "") in
  spec_month_year_name (stem (file_path g)) 2023 = true /\ ~ added [g] 2023 g.
Proof.
  intros g. split; [vm_compute; reflexivity|].
  intros [Hin _]. vm_compute in Hin. exact Hin.
Qed.

(** C9. Only files matching [*.xlsx] are considered: a file with any other
    extension is never added whatever its base name, every file kept in
    the mapping (the only files later loaded) matches [*.xlsx], and an
    archive holding no such file gives the no-files-found error for the
    year. *)
Theorem only_xlsx_considered (files : list ExtractedFile) (y : Z) :
  (forall file, glob_xlsx (file_path file) = false -> ~ added files y file)
  /\ (forall k v, Py.dict_get k (year_files files y) = Some v ->
        glob_xlsx (file_path v) = true)
  /\ ((forall file, In file files -> glob_xlsx (file_path file) = false) ->
      forall country,
        run_comparison_pipeline (Extracted files) y country
        = (None, None,
           Some ("No files found for year " ++ Py.str y ++ ".")%string)).
Proof.
  split; [|split].
  - intros file Hg Ha. apply added_iff in Ha. destruct Ha as (_ & Hg' & _).
    congruence.
  - intros k v H. apply year_files_get in H. destruct H as [Ha _].
    apply added_iff in Ha. tauto.
  - intros Hall country. apply no_files_error.
    unfold year_files.
    assert (Hnil : excel_files files = []).
    { unfold excel_files. induction files as [|f fs IH]; [reflexivity|].
      simpl. rewrite (Hall f) by now left.
      apply IH. intros g Hg. apply Hall. now right. }
    rewrite Hnil. reflexivity.
Qed.

Lemma only_xlsx_considered_witness :
  let csv := mkFile (mkPath "" "Jan2023.csv")
                    (Workbook (mkSheet KPI_COLS [[Num 1; Num 1; Num 1]])) in
  glob_xlsx (file_path csv) = false
  /\ ~ added [csv] 2023 csv
  /\ run_comparison_pipeline (Extracted [csv]) 2023 "All Countries"
     = (None, None, Some "No files found for year 2023.").
Proof.
  intros csv.
  destruct (only_xlsx_considered [csv] 2023) as (Hnot & _ & Herr).
  split; [reflexivity|]. split.
  - apply Hnot. reflexivity.
  - apply Herr. intros file [<-|[]]. reflexivity.
Defined.

(** ** Columns of a frame *)

(** Decide a test between two closed strings. *)
Ltac eval_eqb :=
  repeat match goal with
  | |- context [String.eqb ?a ?b] =>
      let r := eval vm_compute in (String.eqb a b) in
      change (String.eqb a b) with r
  end; cbv iota.

Lemma get_col_set_col (df : DataFrame) (c k : string) (s : Series) :
  get_col (set_col df c s) k = if String.eqb k c then ret s else get_col df k.
Proof.
  unfold get_col, set_col. simpl. rewrite dict_get_set.
  destruct (String.eqb k c); reflexivity.
Qed.

Lemma cell_at_set_col (df : DataFrame) (c k : string) (s : Series) (i : nat) :
  cell_at (set_col df c s) k i
  = if String.eqb k c then nth_error (values s) i else cell_at df k i.
Proof.
  unfold cell_at, set_col. simpl. rewrite dict_get_set.
  destruct (String.eqb k c); reflexivity.
Qed.

Lemma cell_at_get_col (df : DataFrame) (k : string) (i : nat) (x : cell) :
  cell_at df k i = Some x ->
  exists s, get_col df k = inr s /\ nth_error (values s) i = Some x.
Proof.
  unfold cell_at, get_col. destruct (Py.dict_get k (cols df)) as [s|];
    [|discriminate].
  intros H. now exists s.
Qed.

Lemma bind_inr {A B} (m : Exc A) (k : A -> Exc B) (b : B) :
  bind m k = inr b -> exists a, m = inr a /\ k a = inr b.
Proof.
  destruct m as [e|a]; simpl; [discriminate|]. intros H. now exists a.
Qed.

(** Invert [x <- m ;; k = inr b] in a hypothesis. *)
Ltac inv_bind H :=
  let a := fresh "r" in
  let Ha := fresh "E" in
  apply bind_inr in H; destruct H as (a & Ha & H).

Tactic Notation "bind_inv" hyp(H) "as" ident(a) ident(Ha) :=
  apply bind_inr in H; destruct H as (a & Ha & H).

Lemma sub_cells_nth (xs ys ds : list cell) (i : nat) (x y : cell) :
  sub_cells xs ys = inr ds ->
  nth_error xs i = Some x -> nth_error ys i = Some y ->
  exists d, nth_error ds i = Some d /\ sub_cell x y = inr d.
Proof.
  revert ys ds i. induction xs as [|x0 xs IH]; intros ys ds i H Hx Hy.
  - destruct i; discriminate.
  - destruct ys as [|y0 ys]; [destruct i; discriminate|].
    simpl in H. inv_bind H. inv_bind H. injection H as <-.
    destruct i as [|i]; simpl in *.
    + injection Hx as <-. injection Hy as <-. now exists r.
    + eapply IH; eassumption.
Qed.

Lemma abs_cells_nth (vs rs : list cell) (i : nat) (v : cell) :
  abs_cells vs = inr rs ->
  nth_error vs i = Some v ->
  exists r, nth_error rs i = Some r /\ abs_cell v = inr r.
Proof.
  revert rs i. induction vs as [|v0 vs IH]; intros rs i H Hv.
  - destruct i; discriminate.
  - simpl in H. inv_bind H. inv_bind H. injection H as <-.
    destruct i as [|i]; simpl in *.
    + injection Hv as <-. now exists r.
    + eapply IH; eassumption.
Qed.

Lemma sub_values (a b s : Series) :
  sub a b = inr s -> sub_cells (values a) (values b) = inr (values s).
Proof.
  unfold sub. intros H.
  destruct (dtype_of a), (dtype_of b); try discriminate;
    inv_bind H; injection H as <-; exact E.
Qed.



(** The frame returned by [add_discrepancies], column by column. *)
Lemma add_discrepancies_inv (df df' : DataFrame) :
  add_discrepancies df = inr df' ->
  exists k0 k1 k2 d01 d02 d12,
    get_col df (KPI 0) = inr k0 /\ get_col df (KPI 1) = inr k1
    /\ get_col df (KPI 2) = inr k2
    /\ bind (sub k0 k1) abs = inr d01
    /\ bind (sub k0 k2) abs = inr d02
    /\ bind (sub k1 k2) abs = inr d12
    /\ df' = set_col (set_col (set_col (set_col df
               "Diff_Reg_vs_Grp" d01) "Diff_Reg_vs_Act" d02)
               "Diff_Grp_vs_Act" d12)
               "All_Match" (nunique_is_one (nrows df) [k0; k1; k2]).
Proof.
  unfold add_discrepancies, abs_diff. intros H.
  bind_inv H as d01 H01. bind_inv H01 as k0 Hk0. bind_inv H01 as k1 Hk1.
  bind_inv H as d02 H02. bind_inv H02 as k0' Hk0'. bind_inv H02 as k2 Hk2.
  rewrite get_col_set_col in Hk0', Hk2. revert Hk0' Hk2. eval_eqb. intros Hk0' Hk2.
  rewrite Hk0 in Hk0'. injection Hk0' as <-.
  bind_inv H as d12 H12. bind_inv H12 as k1' Hk1'. bind_inv H12 as k2' Hk2'.
  rewrite !get_col_set_col in Hk1', Hk2'. revert Hk1' Hk2'. eval_eqb. intros Hk1' Hk2'.
  rewrite Hk1 in Hk1'. injection Hk1' as <-.
  rewrite Hk2 in Hk2'. injection Hk2' as <-.
  bind_inv H as ks Hks. injection H as <-.
  cbn [get_cols KPI_COLS] in Hks.
  rewrite !get_col_set_col in Hks. revert Hks. eval_eqb.
  change (get_col df "Reported Value to Regulator") with (get_col df (KPI 0)).
  change (get_col df "Reported Value to Group") with (get_col df (KPI 1)).
  change (get_col df "Actual Value MAPS Networks") with (get_col df (KPI 2)).
  rewrite Hk0, Hk1, Hk2. cbn [bind ret]. intros [= <-].
  exists k0, k1, k2, d01, d02, d12. repeat split; assumption.
Qed.


(** ** Discrepancy columns *)






Lemma nth_error_map_seq {A} (f : nat -> A) (n i : nat) :
  (i < n)%nat -> nth_error (map f (seq 0 n)) i = Some (f i).
Proof.
  intros Hi. rewrite nth_error_map, nth_error_seq.
  destruct (Nat.ltb_spec i n); [reflexivity|lia].
Qed.




(** ** The shape of the result *)

(** A successful run, stage by stage. *)
Lemma pipeline_success (zip_bytes : Extraction) (y : Z) (country : string)
                       (plots : Py.dict Figure) (s : Summary) (err : option string) :
  run_comparison_pipeline zip_bytes y country = (Some plots, Some s, err) ->
  exists files dfs df df',
    zip_bytes = Extracted files
    /\ load (year_files files y) = inr dfs
    /\ assemble dfs country = inr df
    /\ empty df = false
    /\ add_discrepancies df = inr df'
    /\ summarize df' y country = inr s
    /\ build_plots df' s = inr plots
    /\ err = None.
Proof.
  unfold run_comparison_pipeline. destruct zip_bytes as [e|files];
    [discriminate|].
  unfold pipeline_body.
  destruct (year_files files y) as [|kv yf] eqn:Hyf; [discriminate|].
  destruct (load (kv :: yf)) as [e|dfs] eqn:Hload; [discriminate|].
  cbn [bind].
  destruct (assemble dfs country) as [e|df] eqn:Hasm; [discriminate|].
  cbn [bind].
  destruct (empty df) eqn:Hempty; [discriminate|].
  destruct (add_discrepancies df) as [e|df'] eqn:Hadd; [discriminate|].
  cbn [bind].
  destruct (summarize df' y country) as [e|s'] eqn:Hsum; [discriminate|].
  cbn [bind].
  destruct (build_plots df' s') as [e|plots'] eqn:Hplots; [discriminate|].
  cbn [bind ret]. intros [= <- <- <-].
  exists files, dfs, df, df'. rewrite Hyf. repeat split; first [assumption | reflexivity].
Qed.

Lemma build_plots_keys (df : DataFrame) (s : Summary) (plots : Py.dict Figure) :
  build_plots df s = inr plots -> Py.keys plots = PLOT_KEYS.
Proof.
  unfold build_plots. intros H.
  bind_inv H as ds Hds. bind_inv H as top Htop.
  bind_inv H as byc Hbyc. bind_inv H as ds' Hds'.
  bind_inv H as bym Hbym. bind_inv H as am Ham.
  injection H as <-. reflexivity.
Qed.

(** C6. Every invocation returns one of two shapes: the chart bundle with
    its five keys together with the summary and no error, or no bundle, no
    summary and an error message. *)
Theorem result_shape (zip_bytes : Extraction) (y : Z) (country : string) :
  (exists plots s,
     run_comparison_pipeline zip_bytes y country = (Some plots, Some s, None)
     /\ Py.keys plots = PLOT_KEYS)
  \/ (exists msg,
        run_comparison_pipeline zip_bytes y country = (None, None, Some msg)).
Proof.
  unfold run_comparison_pipeline. destruct zip_bytes as [e|files].
  - right. eexists. reflexivity.
  - unfold pipeline_body.
    destruct (year_files files y) as [|kv yf]; [right; eexists; reflexivity|].
    destruct (load (kv :: yf)) as [e|dfs]; [right; eexists; reflexivity|].
    cbn [bind].
    destruct (assemble dfs country) as [e|df]; [right; eexists; reflexivity|].
    cbn [bind].
    destruct (empty df); [right; eexists; reflexivity|].
    destruct (add_discrepancies df) as [e|df']; [right; eexists; reflexivity|].
    cbn [bind].
    destruct (summarize df' y country) as [e|s]; [right; eexists; reflexivity|].
    cbn [bind].
    destruct (build_plots df' s) as [e|plots] eqn:Hplots;
      [right; eexists; reflexivity|].
    left. exists plots, s. split; [reflexivity|].
    exact (build_plots_keys df' s plots Hplots).
Qed.

(** ** Summary counters *)

Lemma sum_bool_bounds (s : Series) :
  (0 <= sum_bool s <= Z.of_nat (List.length (values s)))%Z.
Proof.
  unfold sum_bool. split; [apply Nat2Z.is_nonneg|].
  apply Nat2Z.inj_le, filter_length_le.
Qed.

Lemma nunique_is_one_length (n : nat) (cs : list Series) :
  List.length (values (nunique_is_one n cs)) = n.
Proof.
  unfold nunique_is_one. cbn [values]. now rewrite length_map, length_seq.
Qed.

Lemma rate_bounds (a t : Z) :
  (0 <= a <= t)%Z -> (0 < t)%Z ->
  (0 <= inject_Z a / inject_Z t <= 1)%Q.
Proof.
  intros [Ha Hat] Ht.
  assert (Hq : (0 < inject_Z t)%Q) by (change 0%Q with (inject_Z 0); now rewrite <- Zlt_Qlt).
  split.
  - apply Qle_shift_div_l; [exact Hq|]. rewrite Qmult_0_l.
    change 0%Q with (inject_Z 0). now rewrite <- Zle_Qle.
  - apply Qle_shift_div_r; [exact Hq|]. rewrite Qmult_1_l.
    now rewrite <- Zle_Qle.
Qed.

Lemma rates_sum (a t : Z) :
  (0 < t)%Z ->
  (inject_Z a / inject_Z t + inject_Z (t - a) / inject_Z t == 1)%Q.
Proof.
  intros Ht.
  assert (Hq : ~ (inject_Z t == 0)%Q).
  { intros H. assert (t = 0)%Z by (apply inject_Z_injective; exact H). lia. }
  unfold Z.sub. rewrite inject_Z_plus, inject_Z_opp. field. exact Hq.
Qed.

(** C2. Whenever the pipeline returns a summary (so the filtered dataset is
    not empty): the total is positive, the count of matching records and
    the count of mismatches add up to the total, both rates lie between 0
    and 1, and the two rates add up to 1. *)
Theorem summary_invariants (zip_bytes : Extraction) (y : Z) (country : string)
                           (plots : Py.dict Figure) (s : Summary) :
  run_comparison_pipeline zip_bytes y country = (Some plots, Some s, None) ->
  (0 < total s)%Z
  /\ (all_match s + mismatch s = total s)%Z
  /\ (0 <= all_match s <= total s)%Z
  /\ (0 <= mismatch s <= total s)%Z
  /\ (all_match_rate s == inject_Z (all_match s) / inject_Z (total s))%Q
  /\ (mismatch_rate s == inject_Z (mismatch s) / inject_Z (total s))%Q
  /\ (0 <= all_match_rate s <= 1)%Q
  /\ (0 <= mismatch_rate s <= 1)%Q
  /\ (all_match_rate s + mismatch_rate s == 1)%Q.
Proof.
  intros Hrun.
  destruct (pipeline_success _ _ _ _ _ _ Hrun)
    as (files & dfs & df & df' & _ & _ & _ & Hempty & Hadd & Hsum & _ & _).
  destruct (add_discrepancies_inv df df' Hadd)
    as (k0 & k1 & k2 & d01 & d02 & d12 & _ & _ & _ & _ & _ & _ & ->).
  unfold summarize in Hsum.
  bind_inv Hsum as am Ham. bind_inv Hsum as e01 H01.
  bind_inv Hsum as e02 H02. bind_inv Hsum as e12 H12.
  injection Hsum as <-. cbn [total all_match mismatch all_match_rate mismatch_rate].
  rewrite get_col_set_col in Ham. revert Ham. eval_eqb. intros [= <-].
  cbn [set_col nrows].
  pose proof (sum_bool_bounds (nunique_is_one (nrows df) [k0; k1; k2])) as Hb.
  rewrite nunique_is_one_length in Hb.
  set (a := sum_bool (nunique_is_one (nrows df) [k0; k1; k2])) in *.
  set (t := Z.of_nat (nrows df)) in *.
  assert (Ht : (0 < t)%Z).
  { unfold empty in Hempty. apply orb_false_elim in Hempty.
    destruct Hempty as [Hn _]. apply Nat.eqb_neq in Hn. subst t. lia. }
  split; [exact Ht|]. split; [lia|]. split; [lia|]. split; [lia|].
  split; [reflexivity|]. split; [reflexivity|].
  split; [apply rate_bounds; lia|].
  split; [apply rate_bounds; lia|].
  apply rates_sum. exact Ht.
Qed.

Lemma summary_invariants_witness :
  exists plots s,
    run_comparison_pipeline two_month_archive 2023 "All Countries"
    = (Some plots, Some s, None)
    /\ total s = 10%Z /\ all_match s = 5%Z /\ mismatch s = 5%Z
    /\ (all_match_rate s + mismatch_rate s == 1)%Q.
Proof.
  eexists. eexists.
  split; [vm_compute; reflexivity|].
  split; [reflexivity|]. split; [reflexivity|]. split; [reflexivity|].
  eapply (summary_invariants two_month_archive 2023 "All Countries").
  vm_compute. reflexivity.
Defined.

(** ** Failure of the extraction *)

(** C8 (amended). When the bytes are not a valid archive or the extraction
    cannot complete, the exception is caught by the handler of the whole
    pipeline: the result has no chart bundle and no summary, and its
    message is the generic processing error followed by the cause. It is
    the very result of a run whose only selected workbook cannot be read
    for the same cause. *)
Theorem bad_archive_error (err : string) (y : Z) (country : string) :
  run_comparison_pipeline (BadArchive err) y country
  = (None, None, Some ("Processing error: " ++ err)%string)
  /\ (forall path,
        added [mkFile path (Unreadable err)] y (mkFile path (Unreadable err)) ->
        run_comparison_pipeline (Extracted [mkFile path (Unreadable err)]) y country
        = run_comparison_pipeline (BadArchive err) y country).
Proof.
  split; [reflexivity|].
  intros path [Hin Hsel].
  unfold run_comparison_pipeline, pipeline_body, year_files.
  assert (Hfiles : excel_files [mkFile path (Unreadable err)]
                   = [mkFile path (Unreadable err)]).
  { unfold excel_files in *. simpl in *.
    destruct (glob_xlsx path); [reflexivity|destruct Hin]. }
  rewrite Hfiles. cbn [fold_left]. unfold year_files_step. rewrite Hsel.
  reflexivity.
Qed.

Lemma bad_archive_error_witness :
  added [mkFile (mkPath "" "Jan2023.xlsx") (Unreadable "File is not a zip file")]
        2023 (mkFile (mkPath "" "Jan2023.xlsx") (Unreadable "File is not a zip file"))
  /\ run_comparison_pipeline
       (Extracted [mkFile (mkPath "" "Jan2023.xlsx")
                          (Unreadable "File is not a zip file")])
       2023 "All Countries"
     = run_comparison_pipeline (BadArchive "File is not a zip file")
                               2023 "All Countries".
Proof.
  assert (Ha : added [mkFile (mkPath "" "Jan2023.xlsx")
                             (Unreadable "File is not a zip file")]
                     2023 (mkFile (mkPath "" "Jan2023.xlsx")
                                  (Unreadable "File is not a zip file")))
    by (split; [left; reflexivity | vm_compute; reflexivity]).
  split; [exact Ha|].
  exact (proj2 (bad_archive_error "File is not a zip file" 2023 "All Countries")
               (mkPath "" "Jan2023.xlsx") Ha).
Defined.

(** C8 as stated fails: no test on the result tells a failed extraction
    from a processing failure. An archive that cannot be opened and an
    archive whose only workbook cannot be read give the same result when
    the cause is the same. *)
Lemma bad_archive_error_counterexample :
  ~ exists is_extraction_error : Result -> bool,
      (forall err y country,
         is_extraction_error
           (run_comparison_pipeline (BadArchive err) y country) = true)
      /\ (forall file err y country,
            added [mkFile file (Unreadable err)] y (mkFile file (Unreadable err)) ->
            is_extraction_error
              (run_comparison_pipeline
                 (Extracted [mkFile file (Unreadable err)]) y country) = false).
Proof.
  intros (is_extraction_error & Hbad & Hload).
  pose (cause := "File is not a zip file").
  specialize (Hbad cause 2023%Z "All Countries").
  specialize (Hload (mkPath "" "Jan2023.xlsx") cause 2023%Z "All Countries").
  assert (Ha : added [mkFile (mkPath "" "Jan2023.xlsx") (Unreadable cause)] 2023
                     (mkFile (mkPath "" "Jan2023.xlsx") (Unreadable cause))).
  { split; [left; reflexivity | vm_compute; reflexivity]. }
  specialize (Hload Ha).
  change (run_comparison_pipeline
            (Extracted [mkFile (mkPath "" "Jan2023.xlsx") (Unreadable cause)])
            2023 "All Countries")
    with (run_comparison_pipeline (BadArchive cause) 2023 "All Countries")
    in Hload.
  congruence.
Qed.

(** ** Loading and assembling the dataset *)

Lemma sheet_columns_absent (h : string) (hs : list string)
      (rows : list (list cell)) (j : nat) (acc : Py.dict Series) :
  Py.dict_get h acc = None -> ~ In h hs ->
  Py.dict_get h (sheet_columns j hs rows acc) = None.
Proof.
  revert j acc. induction hs as [|h0 hs IH]; intros j acc Hacc Hnot; simpl.
  - exact Hacc.
  - apply IH; [|intros Hin; apply Hnot; now right].
    destruct (Py.dict_get h0 acc); [exact Hacc|].
    rewrite dict_get_app_None by exact Hacc. simpl.
    destruct (String.eqb_spec h h0) as [->|_]; [|reflexivity].
    exfalso. apply Hnot. now left.
Qed.

Lemma has_col_set_scalar (df : DataFrame) (c k m : string) :
  has_col (set_scalar df c m) k = String.eqb k c || has_col df k.
Proof.
  unfold has_col, set_scalar, set_col. simpl. rewrite dict_get_set.
  destruct (String.eqb k c); reflexivity.
Qed.

(** What [load] returns, file by file. *)
Lemma load_inv (items : Py.dict ExtractedFile) (dfs : list DataFrame) :
  load items = inr dfs ->
  Forall2 (fun kv d => exists d0, read_excel (content (snd kv)) = inr d0
                                  /\ d = set_scalar d0 "Month" (fst kv))
          items dfs.
Proof.
  revert dfs. induction items as [|[m file] items IH]; simpl; intros dfs H.
  - injection H as <-. constructor.
  - bind_inv H as d0 Hd0. bind_inv H as rest Hrest. injection H as <-.
    constructor; [exists d0; split; [exact Hd0|reflexivity] | now apply IH].
Qed.

Lemma In_keys_get {V} (k : string) (d : Py.dict V) :
  In k (Py.keys d) <-> Py.dict_get k d <> None.
Proof.
  induction d as [|[k0 v0] d IH]; simpl.
  - split; [intros [] | intros H; now apply H].
  - destruct (String.eqb_spec k k0) as [->|Hne].
    + split; [discriminate | now left].
    + rewrite <- IH. split; [intros [H|H]; [congruence|exact H] | now right].
Qed.

Lemma add_name_In (c : string) (acc : list string) (k : string) :
  In k (add_name acc c) <-> In k acc \/ k = c.
Proof.
  unfold add_name. destruct (existsb (String.eqb c) acc) eqn:He.
  - apply existsb_exists in He. destruct He as (x & Hx & Hcx).
    apply String.eqb_eq in Hcx. subst x.
    split; [now left | intros [H| ->]; assumption].
  - rewrite in_app_iff. simpl. intuition congruence.
Qed.

Lemma fold_add_name_In (l acc : list string) (k : string) :
  In k (fold_left add_name l acc) <-> In k acc \/ In k l.
Proof.
  revert acc. induction l as [|c l IH]; intros acc; simpl.
  - tauto.
  - rewrite IH, add_name_In. intuition congruence.
Qed.

Lemma union_columns_In (dfs : list DataFrame) (k : string) :
  In k (union_columns dfs)
  <-> exists d, In d dfs /\ In k (Py.keys (cols d)).
Proof.
  unfold union_columns.
  assert (H : forall acc,
             In k (fold_left (fun acc df => fold_left add_name (Py.keys (cols df)) acc)
                             dfs acc)
             <-> In k acc \/ exists d, In d dfs /\ In k (Py.keys (cols d))).
  { induction dfs as [|d dfs IH]; intros acc; simpl.
    - split; [now left | intros [H|(d & Hd & _)]; [exact H | destruct Hd]].
    - rewrite IH, fold_add_name_In. split.
      + intros [[H|H]|(d' & Hd' & Hk)].
        * now left.
        * right. exists d. split; [now left|exact H].
        * right. exists d'. split; [now right|exact Hk].
      + intros [H|(d' & [<-|Hd'] & Hk)].
        * left. now left.
        * left. now right.
        * right. exists d'. now split. }
  rewrite H. split; [intros [Hnil|H']; [destruct Hnil | exact H'] | now right].
Qed.

Lemma dict_get_names {V} (f : string -> V) (names : list string) (k : string) :
  Py.dict_get k (map (fun c => (c, f c)) names)
  = if existsb (String.eqb k) names then Some (f k) else None.
Proof.
  induction names as [|c names IH]; simpl; [reflexivity|].
  destruct (String.eqb_spec k c) as [->|_]; [reflexivity|exact IH].
Qed.

Lemma dict_get_map_values {V W} (g : string -> V -> W) (d : Py.dict V) (k : string) :
  Py.dict_get k (map (fun cs => (fst cs, g (fst cs) (snd cs))) d)
  = option_map (g k) (Py.dict_get k d).
Proof.
  induction d as [|[k0 v0] d IH]; simpl; [reflexivity|].
  destruct (String.eqb_spec k k0) as [->|_]; [reflexivity|exact IH].
Qed.

Lemma select_In {A} (mask : list bool) (l : list A) (x : A) :
  In x (select mask l) -> In x l.
Proof.
  revert l. induction mask as [|b mask IH]; intros [|y l]; simpl; try tauto.
  destruct b; simpl; intros H.
  - destruct H as [H|H]; [now left | right; now apply IH].
  - right. now apply IH.
Qed.

Lemma select_length {A B} (mask : list bool) (l : list A) (l' : list B) :
  List.length l = List.length l' ->
  List.length (select mask l) = List.length (select mask l').
Proof.
  revert l l'. induction mask as [|b mask IH]; intros [|x l] [|y l'];
    simpl; try discriminate; try reflexivity.
  intros [= H]. destruct b; simpl; auto.
Qed.

Lemma concat_inv (dfs : list DataFrame) (df : DataFrame) :
  concat dfs = inr df ->
  df = mkDF (list_sum (map nrows dfs))
            (map (fun c => (c, concat_col c dfs)) (union_columns dfs)).
Proof.
  unfold concat. destruct dfs; [discriminate|]. now intros [= <-].
Qed.

Lemma existsb_eqb_In (k : string) (l : list string) :
  existsb (String.eqb k) l = true <-> In k l.
Proof.
  rewrite existsb_exists. split.
  - intros (x & Hx & He). apply String.eqb_eq in He. now subst.
  - intros H. exists k. split; [exact H|apply String.eqb_refl].
Qed.

Lemma get_filter_rows (df : DataFrame) (mask : list bool) (k : string) :
  Py.dict_get k (cols (filter_rows df mask))
  = option_map (fun s => mkSeries (dtype_of s) (select mask (values s)))
               (Py.dict_get k (cols df)).
Proof.
  unfold filter_rows. cbn [cols].
  exact (dict_get_map_values (fun _ s => mkSeries (dtype_of s) (select mask (values s)))
                             (cols df) k).
Qed.

(** A frame read from a sheet has a column only if the header names it. *)
Lemma read_excel_no_column (s : Sheet) (d : DataFrame) (k : string) :
  read_excel (Workbook s) = inr d -> ~ In k (header s) -> has_col d k = false.
Proof.
  simpl. intros [= <-] Hnot. unfold has_col. cbn [cols].
  now rewrite sheet_columns_absent.
Qed.

Lemma nth_error_all_equal {A} (l : list A) (x : A) (i : nat) :
  (forall y, In y l -> y = x) -> (i < List.length l)%nat ->
  nth_error l i = Some x.
Proof.
  intros Hall Hi. destruct (nth_error l i) as [y|] eqn:Hy.
  - f_equal. apply Hall. eapply nth_error_In; eassumption.
  - apply nth_error_None in Hy. lia.
Qed.

Lemma Forall2_In_right {A B} (R : A -> B -> Prop) (l : list A) (l' : list B) (y : B) :
  Forall2 R l l' -> In y l' -> exists x, In x l /\ R x y.
Proof.
  induction 1 as [|x0 y0 l l' HR _ IH]; simpl; [intros []|].
  intros [<-|Hin].
  - exists x0. split; [now left|exact HR].
  - destruct (IH Hin) as (x & Hx & HRx). exists x. split; [now right|exact HRx].
Qed.

(** C7 (amended). When none of the loaded files has a country column, every
    record of the assembled dataset has the country ["Unknown"]. *)
Theorem country_unknown_when_absent
        (items : Py.dict ExtractedFile) (dfs : list DataFrame)
        (country : string) (df : DataFrame) :
  load items = inr dfs ->
  (forall m file s,
     In (m, file) items -> content file = Workbook s ->
     ~ In "Country" (header s)) ->
  assemble dfs country = inr df ->
  forall i, (i < nrows df)%nat ->
            cell_at df "Country" i = Some (Text "Unknown").
Proof.
  intros Hload Hnone Hasm i Hi.
  assert (Hno : forall d, In d dfs -> has_col d "Country" = false).
  { apply load_inv in Hload. intros d Hd.
    destruct (Forall2_In_right _ _ _ _ Hload Hd)
      as ([m file] & Hin & d0 & Hread & ->).
    rewrite has_col_set_scalar. cbn [orb String.eqb Ascii.eqb Bool.eqb].
    cbn [fst snd] in *.
    destruct (content file) as [s|e] eqn:Hc; [|discriminate].
    eapply read_excel_no_column; [exact Hread|].
    eapply Hnone; eassumption. }
  unfold assemble in Hasm. bind_inv Hasm as df0 Hcat.
  apply concat_inv in Hcat.
  assert (Hhas : has_col df0 "Country" = false).
  { subst df0. unfold has_col. cbn [cols]. rewrite dict_get_names.
    destruct (existsb (String.eqb "Country") (union_columns dfs)) eqn:He;
      [|reflexivity].
    apply existsb_eqb_In, union_columns_In in He.
    destruct He as (d & Hd & Hk). apply In_keys_get in Hk.
    specialize (Hno d Hd). unfold has_col in Hno.
    destruct (Py.dict_get "Country" (cols d)); [discriminate|]. now contradiction Hk. }
  rewrite Hhas in Hasm.
  set (n := nrows df0) in *.
  destruct (String.eqb country "All Countries").
  - injection Hasm as <-. unfold cell_at, set_scalar, set_col in *. cbn [cols nrows] in *.
    rewrite dict_get_set, String.eqb_refl. cbn [values].
    apply nth_error_all_equal; [intros y Hy; now apply repeat_spec in Hy|].
    now rewrite repeat_length.
  - bind_inv Hasm as c Hc. injection Hasm as <-.
    unfold get_col, set_scalar, set_col in Hc. cbn [cols] in Hc.
    rewrite dict_get_set, String.eqb_refl in Hc. injection Hc as <-.
    cbn [values] in *.
    unfold cell_at. rewrite get_filter_rows.
    unfold set_scalar, set_col. cbn [cols nrows].
    rewrite dict_get_set, String.eqb_refl. cbn [option_map values].
    apply nth_error_all_equal.
    + intros y Hy. apply select_In in Hy. now apply repeat_spec in Hy.
    + unfold filter_rows, set_scalar, set_col in Hi. cbn [nrows] in Hi.
      fold n in Hi |- *.
      erewrite select_length; [exact Hi|].
      now rewrite repeat_length, length_seq.
Qed.

Lemma country_unknown_when_absent_witness :
  exists dfs df,
    load no_country_items = inr dfs
    /\ assemble dfs "All Countries" = inr df
    /\ (0 < nrows df)%nat
    /\ cell_at df "Country" 0 = Some (Text "Unknown").
Proof.
  eexists. eexists.
  split; [vm_compute; reflexivity|].
  split; [vm_compute; reflexivity|].
  split; [apply Nat.lt_succ_diag_r|].
  eapply (country_unknown_when_absent no_country_items _ "All Countries");
    [vm_compute; reflexivity | | vm_compute; reflexivity | apply Nat.lt_succ_diag_r].
  intros m file s [[= <- <-]|[]] [= <-].
  vm_compute. intros H. repeat destruct H as [H|H]; try discriminate H. exact H.
Defined.

(** C7 as stated fails: when one file has a country column and another has
    none, the records of the second carry a missing country, not
    ["Unknown"]. *)
Lemma country_unknown_when_absent_counterexample :
  ~ (forall files y dfs df m file s i,
       load (year_files files y) = inr dfs ->
       assemble dfs "All Countries" = inr df ->
       Py.dict_get m (year_files files y) = Some file ->
       content file = Workbook s ->
       ~ In "Country" (header s) ->
       cell_at df "Month" i = Some (Text m) ->
       cell_at df "Country" i = Some (Text "Unknown")).
Proof.
  intros H.
  pose (files := [jan_with_country; feb_without_country]).
  destruct (load (year_files files 2023)) as [e|dfs] eqn:Hload;
    [vm_compute in Hload; discriminate|].
  destruct (assemble dfs "All Countries") as [e|df] eqn:Hasm;
    [vm_compute in Hload; injection Hload as <-; vm_compute in Hasm; discriminate|].
  specialize (H files 2023%Z dfs df "Feb" feb_without_country
                (mkSheet KPI_COLS [[Num 2; Num 2; Num 2]]) 1%nat
                Hload Hasm eq_refl eq_refl).
  vm_compute in Hload. injection Hload as <-.
  vm_compute in Hasm. injection Hasm as <-.
  assert (Hnot : ~ In "Country" (header (mkSheet KPI_COLS [[Num 2; Num 2; Num 2]]))).
  { vm_compute. intros Hin.
    repeat destruct Hin as [Hin|Hin]; try discriminate Hin. exact Hin. }
  specialize (H Hnot eq_refl). discriminate H.
Qed.

(** ** Month labels *)

Lemma slice_to_from (n : nat) (s : string) :
  (Py.slice_to n s ++ Py.slice_from n s)%string = s.
Proof.
  revert s. induction n as [|n IH]; intros [|c s]; simpl; try reflexivity.
  now rewrite IH.
Qed.

(** The base name of a selected file is its month label followed by the
    year. *)
Lemma selected_stem (y : Z) (file : ExtractedFile) :
  selected y file = true ->
  stem (file_path file) = (month_str file ++ Py.str y)%string.
Proof.
  unfold selected, month_str. intros H.
  apply andb_prop in H. destruct H as [_ H]. apply String.eqb_eq in H.
  rewrite <- H. symmetry. apply slice_to_from.
Qed.

(** The [Month] column of the concatenation of the loaded frames. *)
Lemma month_column (items : Py.dict ExtractedFile) (dfs : list DataFrame) :
  Forall2 (fun kv d => exists d0, read_excel (content (snd kv)) = inr d0
                                  /\ d = set_scalar d0 "Month" (fst kv))
          items dfs ->
  flat_map (fun d => values (concat_part "Month" d)) dfs
  = flat_map (fun p => repeat (Text (fst (fst p))) (nrows (snd p)))
             (combine items dfs)
  /\ List.length dfs = List.length items
  /\ forall d, In d dfs -> has_col d "Month" = true.
Proof.
  induction 1 as [|[m file] d items dfs (d0 & Hread & ->) _ IH]; simpl.
  - repeat split. intros d [].
  - destruct IH as (IHv & IHl & IHc). rewrite IHv, IHl.
    unfold concat_part at 1. unfold set_scalar at 1, set_col at 1. cbn [cols].
    rewrite dict_get_set, String.eqb_refl. cbn [values fst snd nrows].
    repeat split.
    intros d [<-|Hd]; [|now apply IHc].
    rewrite has_col_set_scalar, String.eqb_refl. reflexivity.
Qed.

(** C10. The month label is the first three characters of the base name,
    taken as they are. Two files of the listing that are both selected for
    the year and whose base names differ (in particular names that differ
    only in the case of their letters) have different labels; each label is
    a key of the mapping, held by a file with exactly that label, which is
    the file itself when no other selected file has its base name; and in
    the assembled dataset the rows of every loaded file carry the key of
    that file as their month. *)
Theorem month_labels_keep_case (files : list ExtractedFile) (y : Z)
                               (f1 f2 : ExtractedFile) :
  added files y f1 -> added files y f2 ->
  stem (file_path f1) <> stem (file_path f2) ->
  stem (file_path f1) = (month_str f1 ++ Py.str y)%string
  /\ stem (file_path f2) = (month_str f2 ++ Py.str y)%string
  /\ month_str f1 <> month_str f2
  /\ (exists v1 v2,
        Py.dict_get (month_str f1) (year_files files y) = Some v1
        /\ Py.dict_get (month_str f2) (year_files files y) = Some v2
        /\ month_str v1 = month_str f1 /\ month_str v2 = month_str f2
        /\ ((forall g, added files y g ->
                       stem (file_path g) = stem (file_path f1) -> g = f1) ->
            v1 = f1)
        /\ ((forall g, added files y g ->
                       stem (file_path g) = stem (file_path f2) -> g = f2) ->
            v2 = f2))
  /\ (forall dfs df,
        load (year_files files y) = inr dfs ->
        assemble dfs "All Countries" = inr df ->
        List.length dfs = List.length (year_files files y)
        /\ exists s,
             Py.dict_get "Month" (cols df) = Some s
             /\ values s
                = flat_map (fun p => repeat (Text (fst (fst p))) (nrows (snd p)))
                           (combine (year_files files y) dfs)).
Proof.
  intros Ha1 Ha2 Hne.
  pose proof (selected_stem y f1 (proj2 Ha1)) as Hs1.
  pose proof (selected_stem y f2 (proj2 Ha2)) as Hs2.
  split; [exact Hs1|]. split; [exact Hs2|].
  split; [intros Heq; apply Hne; rewrite Hs1, Hs2, Heq; reflexivity|].
  split.
  - destruct (year_files_has files y f1 Ha1) as (v1 & Hv1).
    destruct (year_files_has files y f2 Ha2) as (v2 & Hv2).
    pose proof (year_files_get _ _ _ _ Hv1) as [Hav1 Hm1].
    pose proof (year_files_get _ _ _ _ Hv2) as [Hav2 Hm2].
    exists v1, v2.
    split; [exact Hv1|]. split; [exact Hv2|].
    split; [exact Hm1|]. split; [exact Hm2|].
    split; intros Honly; apply Honly; try assumption.
    + now rewrite (selected_stem y v1 (proj2 Hav1)), Hm1, Hs1.
    + now rewrite (selected_stem y v2 (proj2 Hav2)), Hm2, Hs2.
  - intros dfs df Hload Hasm.
    apply load_inv in Hload.
    destruct (month_column _ _ Hload) as (Hvals & Hlen & Hcol).
    split; [exact Hlen|].
    unfold assemble in Hasm. bind_inv Hasm as df0 Hcat.
    cbn [String.eqb Ascii.eqb Bool.eqb] in Hasm.
    assert (Hmonth : Py.dict_get "Month" (cols df0) = Some (concat_col "Month" dfs)).
    { pose proof (concat_inv _ _ Hcat) as ->. cbn [cols].
      rewrite dict_get_names.
      destruct dfs as [|d dfs]; [discriminate|].
      assert (Hin : In "Month" (union_columns (d :: dfs))).
      { apply union_columns_In. exists d. split; [now left|].
        apply In_keys_get. specialize (Hcol d (or_introl eq_refl)).
        unfold has_col in Hcol. destruct (Py.dict_get "Month" (cols d)); [discriminate|].
        discriminate. }
      apply existsb_eqb_In in Hin. rewrite Hin. reflexivity. }
    exists (concat_col "Month" dfs).
    split; [|exact Hvals].
    destruct (has_col df0 "Country"); injection Hasm as <-; [exact Hmonth|].
    unfold set_scalar, set_col. cbn [cols]. rewrite dict_get_set.
    cbn [String.eqb Ascii.eqb Bool.eqb]. exact Hmonth.
Qed.

Lemma month_labels_keep_case_witness :
  added [upper_jan; lower_jan] 2023 upper_jan
  /\ added [upper_jan; lower_jan] 2023 lower_jan
  /\ stem (file_path upper_jan) <> stem (file_path lower_jan)
  /\ month_str upper_jan <> month_str lower_jan
  /\ Py.keys (year_files [upper_jan; lower_jan] 2023) = ["JAN"; "jan"]
  /\ exists dfs df,
       load (year_files [upper_jan; lower_jan] 2023) = inr dfs
       /\ assemble dfs "All Countries" = inr df
       /\ cell_at df "Month" 0 = Some (Text "JAN")
       /\ cell_at df "Month" 1 = Some (Text "jan")
       /\ cell_at df "Month" 2 = Some (Text "jan").
Proof.
  assert (Ha1 : added [upper_jan; lower_jan] 2023 upper_jan)
    by (split; [left; reflexivity | vm_compute; reflexivity]).
  assert (Ha2 : added [upper_jan; lower_jan] 2023 lower_jan)
    by (split; [right; left; reflexivity | vm_compute; reflexivity]).
  assert (Hne : stem (file_path upper_jan) <> stem (file_path lower_jan))
    by (vm_compute; discriminate).
  split; [exact Ha1|]. split; [exact Ha2|]. split; [exact Hne|].
  split.
  - exact (proj1 (proj2 (proj2
             (month_labels_keep_case [upper_jan; lower_jan] 2023
                                     upper_jan lower_jan Ha1 Ha2 Hne)))).
  - split; [vm_compute; reflexivity|].
    eexists. eexists.
    split; [vm_compute; reflexivity|].
    split; [vm_compute; reflexivity|].
    repeat split.
Defined.

(** ** Text in a KPI column *)






















(** ** The largest mismatches *)



















(** * Further properties *)

(** ** Keys of the month-to-file mapping *)

Lemma keys_dict_set {V} (k : string) (v : V) (d : Py.dict V) :
  Py.keys (Py.dict_set k v d)
  = if existsb (String.eqb k) (Py.keys d) then Py.keys d else (Py.keys d ++ [k])%list.
Proof.
  induction d as [|[k0 v0] d IH]; simpl; [reflexivity|].
  destruct (String.eqb_spec k k0) as [->|Hne]; simpl; [reflexivity|].
  rewrite IH. destruct (existsb (String.eqb k) (Py.keys d)); reflexivity.
Qed.

Lemma keys_dict_set_NoDup {V} (k : string) (v : V) (d : Py.dict V) :
  NoDup (Py.keys d) -> NoDup (Py.keys (Py.dict_set k v d)).
Proof.
  intros Hnd. rewrite keys_dict_set.
  destruct (existsb (String.eqb k) (Py.keys d)) eqn:He; [exact Hnd|].
  apply NoDup_app; [exact Hnd | constructor; [intros []|constructor] |].
  intros x Hx [Heq|[]]. subst x.
  assert (existsb (String.eqb k) (Py.keys d) = true) by now apply existsb_eqb_In.
  congruence.
Qed.

Lemma keys_dict_set_length {V} (k : string) (v : V) (d : Py.dict V) :
  (List.length (Py.dict_set k v d) <= S (List.length d))%nat.
Proof.
  induction d as [|[k0 v0] d IH]; simpl; [lia|].
  destruct (String.eqb k k0); simpl; lia.
Qed.

(** The first three characters of a name that matches the pattern. *)
Lemma re_match_label (s : string) :
  re_match_month_year s = true ->
  exists a b c, Py.slice_to 3 s = String a (String b (String c EmptyString))
                /\ Py.is_alpha a = true /\ Py.is_alpha b = true
                /\ Py.is_alpha c = true.
Proof.
  destruct s as [|a [|b [|c [|d1 [|d2 [|d3 [|d4 rest]]]]]]]; try discriminate.
  cbn [re_match_month_year]. intros H.
  repeat (apply andb_prop in H; destruct H as [H ?]).
  exists a, b, c. repeat split; assumption.
Qed.

Section YearFilesKeys.
Variable selected_year : Z.

Lemma fold_step_keys (l : list ExtractedFile) (d : Py.dict ExtractedFile) :
  NoDup (Py.keys d) ->
  NoDup (Py.keys (fold_left (year_files_step selected_year) l d))
  /\ (List.length (fold_left (year_files_step selected_year) l d)
      <= List.length d + List.length (filter (selected selected_year) l))%nat.
Proof.
  revert d. induction l as [|f l IH]; simpl; intros d Hd.
  - split; [exact Hd|lia].
  - unfold year_files_step at 2 4.
    destruct (selected selected_year f) eqn:Hsel.
    + destruct (IH (Py.dict_set (month_str f) f d)
                   (keys_dict_set_NoDup _ _ _ Hd)) as [H1 H2].
      split; [exact H1|].
      pose proof (keys_dict_set_length (month_str f) f d). simpl. lia.
    + apply IH. exact Hd.
Qed.

Lemma fold_step_other (l : list ExtractedFile) (d : Py.dict ExtractedFile) k :
  (forall g, In g l -> selected selected_year g = true -> month_str g <> k) ->
  Py.dict_get k (fold_left (year_files_step selected_year) l d) = Py.dict_get k d.
Proof.
  revert d. induction l as [|f l IH]; simpl; intros d H; [reflexivity|].
  rewrite IH by (intros g Hg; apply H; now right).
  unfold year_files_step. destruct (selected selected_year f) eqn:Hsel;
    [|reflexivity].
  rewrite dict_get_set.
  destruct (String.eqb_spec k (month_str f)) as [->|_]; [|reflexivity].
  exfalso. exact (H f (or_introl eq_refl) Hsel eq_refl).
Qed.

Lemma fold_step_unselected (l : list ExtractedFile) (d : Py.dict ExtractedFile) :
  (forall f, In f l -> selected selected_year f = false) ->
  fold_left (year_files_step selected_year) l d = d.
Proof.
  revert d. induction l as [|g l IH]; simpl; intros d H; [reflexivity|].
  unfold year_files_step at 2. rewrite (H g) by now left.
  apply IH. intros f Hf. apply H. now right.
Qed.
End YearFilesKeys.

(** X1. The month-to-file mapping never holds a month twice: its keys are
    pairwise different, each key is three ASCII letters, and there are at
    most as many entries as files that pass the test of the loop. *)
Theorem year_files_keys (files : list ExtractedFile) (y : Z) :
  NoDup (Py.keys (year_files files y))
  /\ (List.length (year_files files y)
      <= List.length (filter (selected y) (excel_files files)))%nat
  /\ (forall k, In k (Py.keys (year_files files y)) ->
        exists a b c, k = String a (String b (String c EmptyString))
                      /\ Py.is_alpha a = true /\ Py.is_alpha b = true
                      /\ Py.is_alpha c = true).
Proof.
  unfold year_files.
  destruct (fold_step_keys y (excel_files files) [] (NoDup_nil _)) as [H1 H2].
  split; [exact H1|]. split; [exact H2|].
  intros k Hk. apply In_keys_get in Hk.
  destruct (Py.dict_get k _) as [v|] eqn:Hget; [|contradiction].
  apply fold_step_get in Hget. destruct Hget as [Hget|(_ & Hsel & <-)];
    [discriminate|].
  unfold selected in Hsel. apply andb_prop in Hsel. destruct Hsel as [Hre _].
  exact (re_match_label _ Hre).
Qed.

(** X2. Last write wins: of the files that are selected with one month
    label, the mapping holds the last one of the listing. *)
Theorem year_files_last_wins (before_ after_ : list ExtractedFile)
        (file : ExtractedFile) (y : Z) :
  glob_xlsx (file_path file) = true ->
  selected y file = true ->
  (forall g, In g after_ -> added after_ y g -> month_str g <> month_str file) ->
  Py.dict_get (month_str file) (year_files (before_ ++ file :: after_) y)
  = Some file.
Proof.
  intros Hglob Hsel Hafter. unfold year_files, excel_files.
  rewrite filter_app. cbn [filter]. rewrite Hglob.
  rewrite fold_left_app. cbn [fold_left].
  rewrite fold_step_other.
  - unfold year_files_step at 1. rewrite Hsel, dict_get_set, String.eqb_refl.
    reflexivity.
  - intros g Hg Hgsel. apply filter_In in Hg. destruct Hg as [Hin Hgl].
    apply Hafter; [exact Hin|]. apply added_iff. auto.
Qed.

Lemma year_files_last_wins_witness :
  let first := mkFile (mkPath "a" "Jan2023.xlsx") (Unreadable "first") in
  let second := mkFile (mkPath "b" "Jan2023.xlsx") (Unreadable "second") in
  Py.dict_get "Jan" (year_files [first; second] 2023) = Some second.
Proof.
  intros first second.
  apply (year_files_last_wins [first] [] second 2023);
    [reflexivity | vm_compute; reflexivity | intros g []].
Defined.

(** ** Decimal representation *)

Lemma str_injective (a b : Z) : Py.str a = Py.str b -> a = b.
Proof.
  unfold Py.str. intros H.
  apply DecimalZ.to_int_inj.
  assert (Hn : forall z, Z.to_int z <> Decimal.Pos Decimal.Nil
                         /\ Z.to_int z <> Decimal.Neg Decimal.Nil).
  { intros [|p|p]; simpl; split; try discriminate;
      intros [= Hp]; exact (DecimalPos.Unsigned.to_uint_nonnil p Hp). }
  pose proof (NilZero.isi (Z.to_int a) (proj1 (Hn a)) (proj2 (Hn a))) as Ha.
  pose proof (NilZero.isi (Z.to_int b) (proj1 (Hn b)) (proj2 (Hn b))) as Hb.
  rewrite H in Ha. congruence.
Qed.

(** X3. A file belongs to one year at most: if the test of the loop
    accepts it for two target years, they are the same year. *)
Theorem selected_one_year (file : ExtractedFile) (y1 y2 : Z) :
  selected y1 file = true -> selected y2 file = true -> y1 = y2.
Proof.
  unfold selected. intros H1 H2.
  apply andb_prop in H1, H2. destruct H1 as [_ H1], H2 as [_ H2].
  apply String.eqb_eq in H1, H2. apply str_injective. congruence.
Qed.

Lemma selected_one_year_witness :
  selected 2023 (mkFile (mkPath "" "Jan2023.xlsx") (Unreadable "")) = true
  /\ (2023 = 2023)%Z.
Proof.
  split; [vm_compute; reflexivity|].
  apply (selected_one_year (mkFile (mkPath "" "Jan2023.xlsx") (Unreadable "")));
    vm_compute; reflexivity.
Defined.

Lemma str_below_1000 (y : Z) :
  (0 <= y < 1000)%Z -> (String.length (Py.str y) <= 3)%nat.
Proof.
  intros Hy.
  assert (Hall : forallb (fun n => String.length (Py.str (Z.of_nat n)) <=? 3)%nat
                         (seq 0 (Z.to_nat 1000)) = true)
    by (vm_compute; reflexivity).
  rewrite forallb_forall in Hall.
  specialize (Hall (Z.to_nat y)).
  rewrite Z2Nat.id in Hall by lia.
  apply Nat.leb_le, Hall, in_seq. lia.
Qed.

Lemma selected_below_1000 (y : Z) (file : ExtractedFile) :
  (y < 1000)%Z -> selected y file = false.
Proof.
  intros Hy. rewrite selected_spec by lia.
  destruct (stem (file_path file)) as [|a [|b [|c [|d1 [|d2 [|d3 [|d4 rest]]]]]]];
    try reflexivity.
  cbn [spec_month_year_name]. destruct rest; [|reflexivity].
  destruct (String.eqb_spec
              (String d1 (String d2 (String d3 (String d4 EmptyString))))
              (Py.str y)) as [Heq|]; [|apply andb_false_r].
  destruct (Z.lt_ge_cases y 0) as [Hneg|Hpos].
  - destruct (str_negative y Hneg) as [r Hr]. rewrite Hr in Heq.
    injection Heq as -> _. rewrite minus_not_digit.
    now rewrite ?andb_false_r, ?andb_false_l.
  - pose proof (str_below_1000 y (conj Hpos Hy)) as Hlen.
    rewrite <- Heq in Hlen. simpl in Hlen. lia.
Qed.

(** X4. A target year below 1000 (negative years included) matches no file:
    whatever the archive holds, the pipeline answers that no files were
    found for that year. *)
Theorem year_below_1000_no_files (files : list ExtractedFile) (y : Z)
                                 (country : string) :
  (y < 1000)%Z ->
  run_comparison_pipeline (Extracted files) y country
  = (None, None, Some ("No files found for year " ++ Py.str y ++ ".")%string).
Proof.
  intros Hy. apply no_files_error. unfold year_files.
  apply fold_step_unselected. intros f _. now apply selected_below_1000.
Qed.

Lemma year_below_1000_no_files_witness :
  (999 < 1000)%Z
  /\ run_comparison_pipeline two_month_archive 999 "All Countries"
     = (None, None, Some "No files found for year 999.").
Proof.
  split; [lia|].
  apply (year_below_1000_no_files _ 999 "All Countries"). lia.
Defined.

(** ** File names *)

Lemma rfind_dot_xlsx (b : string) :
  Py.rfind_dot (b ++ ".xlsx") = Some (String.length b).
Proof.
  induction b as [|c b IH]; [reflexivity|].
  cbn [String.append Py.rfind_dot String.length]. now rewrite IH.
Qed.

Lemma slice_to_app (b s : string) : Py.slice_to (String.length b) (b ++ s) = b.
Proof.
  induction b as [|c b IH]; simpl.
  - now destruct s.
  - now rewrite IH.
Qed.

Lemma slice_from_app (b s : string) : Py.slice_from (String.length b) (b ++ s) = s.
Proof.
  induction b as [|c b IH]; simpl; [now destruct s|exact IH].
Qed.

Lemma length_append (b s : string) :
  String.length (b ++ s) = (String.length b + String.length s)%nat.
Proof. induction b as [|c b IH]; simpl; [reflexivity|now rewrite IH]. Qed.

Lemma glob_xlsx_suffix (dir b : string) :
  glob_xlsx (mkPath dir (b ++ ".xlsx")) = true.
Proof.
  unfold glob_xlsx, Py.endswith. cbn [name].
  rewrite length_append. cbn [String.length].
  replace (String.length b + 5 - 5)%nat with (String.length b) by lia.
  rewrite slice_from_app, String.eqb_refl.
  apply andb_true_intro. split; [apply Nat.leb_le; lia|reflexivity].
Qed.

Lemma stem_suffix (dir b : string) :
  b <> EmptyString -> stem (mkPath dir (b ++ ".xlsx")) = b.
Proof.
  intros Hb. unfold stem. cbn [name]. rewrite rfind_dot_xlsx.
  rewrite length_append. cbn [String.length].
  assert (Hlen : (0 < String.length b)%nat) by (destruct b; [congruence|simpl; lia]).
  destruct (Nat.ltb_spec 0 (String.length b)); [|lia].
  destruct (Nat.ltb_spec (String.length b) (String.length b + 5 - 1)); [|lia].
  cbn [andb]. apply slice_to_app.
Qed.

(** X5. A name [b.xlsx] with a non-empty [b] is listed by the search for
    Excel files, in any directory, and its base name is [b] (dots inside
    [b] stay in the base name); the name [.xlsx] alone is listed too, but
    its base name is the whole name, so it can never be selected. *)
Theorem xlsx_name_stem (dir b : string) :
  glob_xlsx (mkPath dir (b ++ ".xlsx")) = true
  /\ (b <> EmptyString -> stem (mkPath dir (b ++ ".xlsx")) = b)
  /\ stem (mkPath dir ".xlsx") = ".xlsx"
  /\ (forall y content, selected y (mkFile (mkPath dir ".xlsx") content) = false).
Proof.
  split; [apply glob_xlsx_suffix|]. split; [apply stem_suffix|].
  split; reflexivity.
Qed.

Lemma xlsx_name_stem_witness :
  "Jan2023.v2" <> EmptyString
  /\ stem (mkPath "reports/q1" ("Jan2023.v2" ++ ".xlsx")) = "Jan2023.v2".
Proof.
  split; [discriminate|].
  apply (xlsx_name_stem "reports/q1" "Jan2023.v2"). discriminate.
Defined.

Lemma str_four_digits (y : Z) :
  (1000 <= y <= 9999)%Z ->
  exists d1 d2 d3 d4,
    Py.str y = String d1 (String d2 (String d3 (String d4 EmptyString)))
    /\ Py.is_digit d1 = true /\ Py.is_digit d2 = true
    /\ Py.is_digit d3 = true /\ Py.is_digit d4 = true.
Proof.
  intros Hy.
  pose (ok := fun s =>
          match s with
          | String d1 (String d2 (String d3 (String d4 EmptyString))) =>
              Py.is_digit d1 && Py.is_digit d2 && Py.is_digit d3 && Py.is_digit d4
          | _ => false
          end).
  assert (Hall : forallb (fun n => ok (Py.str (Z.of_nat n)))
                         (seq (Z.to_nat 1000) (Z.to_nat 9000)) = true)
    by (vm_compute; reflexivity).
  rewrite forallb_forall in Hall.
  specialize (Hall (Z.to_nat y)).
  rewrite Z2Nat.id in Hall by lia.
  assert (Hok : ok (Py.str y) = true) by (apply Hall, in_seq; lia).
  unfold ok in Hok.
  destruct (Py.str y) as [|d1 [|d2 [|d3 [|d4 [|]]]]]; try discriminate.
  apply andb_prop in Hok. destruct Hok as [Hok H4].
  apply andb_prop in Hok. destruct Hok as [Hok H3].
  apply andb_prop in Hok. destruct Hok as [H1 H2].
  exists d1, d2, d3, d4. repeat split; first [assumption | reflexivity].
Qed.

(** X6. A file named with three ASCII letters, the four digits of the year
    and [.xlsx] is selected for that year wherever it lies in the archive,
    under the key made of its three letters; so an archive that holds such
    a file never gives the no-files-found answer. *)
Theorem conventional_name_selected
        (files : list ExtractedFile) (dir : string) (a b c : ascii)
        (y : Z) (content : Content) :
  let label := String a (String b (String c EmptyString)) in
  let file := mkFile (mkPath dir (label ++ Py.str y ++ ".xlsx")) content in
  Py.is_alpha a = true -> Py.is_alpha b = true -> Py.is_alpha c = true ->
  (1000 <= y <= 9999)%Z ->
  In file files ->
  added files y file
  /\ month_str file = label
  /\ Py.dict_get label (year_files files y) <> None
  /\ forall country,
       run_comparison_pipeline (Extracted files) y country
       <> (None, None, Some ("No files found for year " ++ Py.str y ++ ".")%string).
Proof.
  intros label file Ha Hb Hc Hy Hin.
  destruct (str_four_digits y Hy) as (d1 & d2 & d3 & d4 & Hstr & H1 & H2 & H3 & H4).
  assert (Hname : name (file_path file) = ((label ++ Py.str y) ++ ".xlsx")%string).
  { unfold file, label. cbn [file_path name]. simpl. reflexivity. }
  assert (Hstem : stem (file_path file) = (label ++ Py.str y)%string).
  { unfold file. cbn [file_path].
    change (label ++ Py.str y ++ ".xlsx")%string
      with ((label ++ Py.str y) ++ ".xlsx")%string.
    apply stem_suffix. unfold label. discriminate. }
  assert (Hsel : selected y file = true).
  { unfold selected. rewrite Hstem, Hstr. unfold label.
    cbn [String.append re_match_month_year Py.slice_from].
    rewrite Ha, Hb, Hc, H1, H2, H3, H4, String.eqb_refl. reflexivity. }
  assert (Hadd : added files y file).
  { apply added_iff. split; [exact Hin|]. split; [|exact Hsel].
    unfold file. cbn [file_path].
    change (label ++ Py.str y ++ ".xlsx")%string
      with ((label ++ Py.str y) ++ ".xlsx")%string.
    apply glob_xlsx_suffix. }
  assert (Hlabel : month_str file = label).
  { unfold month_str. rewrite Hstem. reflexivity. }
  split; [exact Hadd|]. split; [exact Hlabel|].
  assert (Hget : Py.dict_get label (year_files files y) <> None).
  { destruct (year_files_has files y file Hadd) as (v & Hv).
    rewrite Hlabel in Hv. congruence. }
  split; [exact Hget|].
  intros country Herr.
  unfold run_comparison_pipeline, pipeline_body in Herr.
  destruct (year_files files y) as [|kv yf] eqn:Hyf; [now apply Hget|].
  destruct (load (kv :: yf)) as [e|dfs]; cbn [bind] in Herr; [discriminate|].
  destruct (assemble dfs country) as [e|df]; cbn [bind] in Herr; [discriminate|].
  destruct (empty df).
  - cbn [ret] in Herr. injection Herr as Herr. discriminate Herr.
  - destruct (add_discrepancies df) as [e|df']; cbn [bind] in Herr; [discriminate|].
    destruct (summarize df' y country) as [e|s]; cbn [bind] in Herr; [discriminate|].
    destruct (build_plots df' s) as [e|p]; cbn [bind] in Herr; discriminate.
Qed.

Lemma conventional_name_selected_witness :
  let file := mkFile (mkPath "data" "Mar2023.xlsx") (Unreadable "") in
  (1000 <= 2023 <= 9999)%Z
  /\ added [file] 2023 file /\ month_str file = "Mar".
Proof.
  intros file.
  assert (Hy : (1000 <= 2023 <= 9999)%Z) by lia.
  split; [exact Hy|].
  destruct (conventional_name_selected [file] "data" "M" "a" "r" 2023
              (Unreadable "") eq_refl eq_refl eq_refl Hy (or_introl eq_refl))
    as (Ha & Hm & _).
  split; assumption.
Defined.

(** ** Shape of the dataset *)

Lemma Forall_dict_set {V} (P : V -> Prop) (k : string) (v : V) (d : Py.dict V) :
  P v -> Forall (fun kv => P (snd kv)) d ->
  Forall (fun kv => P (snd kv)) (Py.dict_set k v d).
Proof.
  intros Hv. induction 1 as [|[k0 v0] d H0 Hd IH]; simpl.
  - constructor; [exact Hv|constructor].
  - destruct (String.eqb k k0); constructor; assumption.
Qed.

Lemma well_formed_set_col (df : DataFrame) (c : string) (s : Series) :
  well_formed df -> List.length (values s) = nrows df ->
  well_formed (set_col df c s).
Proof.
  intros Hwf Hs. unfold well_formed, set_col. cbn [cols nrows].
  exact (Forall_dict_set (fun s => List.length (values s) = nrows df) c s _ Hs Hwf).
Qed.

Lemma well_formed_set_scalar (df : DataFrame) (c m : string) :
  well_formed df -> well_formed (set_scalar df c m).
Proof.
  intros H. apply well_formed_set_col; [exact H|]. cbn [values]. apply repeat_length.
Qed.

Lemma well_formed_get (df : DataFrame) (c : string) (s : Series) :
  well_formed df -> get_col df c = inr s -> List.length (values s) = nrows df.
Proof.
  unfold get_col. intros Hwf H.
  destruct (Py.dict_get c (cols df)) as [s'|] eqn:Hget; [|discriminate].
  injection H as <-. apply dict_get_In in Hget.
  unfold well_formed in Hwf. rewrite Forall_forall in Hwf. exact (Hwf _ Hget).
Qed.

Lemma well_formed_sheet_columns (hs : list string) (rows : list (list cell))
      (j : nat) (acc : Py.dict Series) :
  Forall (fun cs => List.length (values (snd cs)) = List.length rows) acc ->
  Forall (fun cs => List.length (values (snd cs)) = List.length rows)
         (sheet_columns j hs rows acc).
Proof.
  revert j acc. induction hs as [|h hs IH]; intros j acc Hacc; simpl.
  - exact Hacc.
  - apply IH. destruct (Py.dict_get h acc); [exact Hacc|].
    apply Forall_app. split; [exact Hacc|].
    constructor; [|constructor]. cbn [snd values].
    unfold sheet_column. apply length_map.
Qed.

Lemma well_formed_read_excel (c : Content) (d : DataFrame) :
  read_excel c = inr d -> well_formed d.
Proof.
  destruct c as [s|e]; simpl; [|discriminate]. intros [= <-].
  unfold well_formed. cbn [cols nrows].
  apply well_formed_sheet_columns. constructor.
Qed.

Lemma well_formed_load (items : Py.dict ExtractedFile) (dfs : list DataFrame) :
  load items = inr dfs -> forall d, In d dfs -> well_formed d.
Proof.
  intros Hload d Hd. apply load_inv in Hload.
  destruct (Forall2_In_right _ _ _ _ Hload Hd) as (kv & _ & d0 & Hread & ->).
  apply well_formed_set_scalar. eapply well_formed_read_excel. exact Hread.
Qed.

Lemma concat_col_length (c : string) (dfs : list DataFrame) :
  (forall d, In d dfs -> well_formed d) ->
  List.length (values (concat_col c dfs)) = list_sum (map nrows dfs).
Proof.
  intros Hall. unfold concat_col. cbn [values].
  induction dfs as [|d dfs IH]; simpl; [reflexivity|].
  rewrite length_app, IH by (intros d' Hd'; apply Hall; now right).
  f_equal. unfold concat_part.
  destruct (Py.dict_get c (cols d)) as [s|] eqn:Hget.
  - apply dict_get_In in Hget.
    pose proof (Hall d (or_introl eq_refl)) as Hwf.
    unfold well_formed in Hwf. rewrite Forall_forall in Hwf. exact (Hwf _ Hget).
  - cbn [values]. apply repeat_length.
Qed.

Lemma well_formed_concat (dfs : list DataFrame) (df : DataFrame) :
  (forall d, In d dfs -> well_formed d) -> concat dfs = inr df -> well_formed df.
Proof.
  intros Hall Hcat. rewrite (concat_inv _ _ Hcat).
  unfold well_formed. cbn [cols nrows].
  apply Forall_map, Forall_forall. intros c _. cbn [snd].
  now apply concat_col_length.
Qed.

Lemma well_formed_filter_rows (df : DataFrame) (mask : list bool) :
  well_formed df -> well_formed (filter_rows df mask).
Proof.
  unfold well_formed, filter_rows. cbn [cols nrows]. intros H.
  apply Forall_map. eapply Forall_impl; [|exact H].
  intros [k s] Hs. cbn [snd values] in *.
  apply select_length. now rewrite Hs, length_seq.
Qed.

(** The filtered dataset in terms of the unfiltered one. *)
Lemma assemble_filter (dfs : list DataFrame) (country : string) (df0 : DataFrame) :
  assemble dfs "All Countries" = inr df0 ->
  String.eqb country "All Countries" = false ->
  exists c0,
    get_col df0 "Country" = inr c0
    /\ assemble dfs country
       = inr (filter_rows df0 (map (eq_str country) (values c0))).
Proof.
  unfold assemble. intros H0 Hc.
  destruct (concat dfs) as [e|df] eqn:Hcat; [discriminate|].
  cbn [bind] in *. rewrite Hc.
  cbn [String.eqb Ascii.eqb Bool.eqb] in H0. injection H0 as <-.
  destruct (has_col df "Country") eqn:Hhas.
  - unfold has_col in Hhas. unfold get_col.
    destruct (Py.dict_get "Country" (cols df)) as [c0|]; [|discriminate].
    exists c0. split; reflexivity.
  - unfold get_col, set_scalar, set_col. cbn [cols].
    rewrite dict_get_set, String.eqb_refl. eexists. split; reflexivity.
Qed.


Lemma well_formed_assemble (dfs : list DataFrame) (country : string) (df : DataFrame) :
  (forall d, In d dfs -> well_formed d) ->
  assemble dfs country = inr df -> well_formed df.
Proof.
  intros Hall Hasm. unfold assemble in Hasm. bind_inv Hasm as df0 Hcat.
  pose proof (well_formed_concat _ _ Hall Hcat) as H0.
  assert (H1 : well_formed (if has_col df0 "Country" then df0
                            else set_scalar df0 "Country" "Unknown")).
  { destruct (has_col df0 "Country"); [exact H0|now apply well_formed_set_scalar]. }
  destruct (String.eqb country "All Countries").
  - now injection Hasm as <-.
  - bind_inv Hasm as c Hc. injection Hasm as <-. now apply well_formed_filter_rows.
Qed.

Lemma sub_cells_length (xs ys ds : list cell) :
  sub_cells xs ys = inr ds ->
  List.length ds = Nat.min (List.length xs) (List.length ys).
Proof.
  revert ys ds. induction xs as [|x xs IH]; intros [|y ys] ds H; simpl in *;
    try (injection H as <-; reflexivity).
  bind_inv H as d Hd. bind_inv H as r Hr. injection H as <-.
  simpl. f_equal. now apply IH.
Qed.

Lemma abs_cells_length (vs rs : list cell) :
  abs_cells vs = inr rs -> List.length rs = List.length vs.
Proof.
  revert rs. induction vs as [|v vs IH]; intros rs H; simpl in *.
  - now injection H as <-.
  - bind_inv H as a Ha. bind_inv H as r Hr. injection H as <-.
    simpl. f_equal. now apply IH.
Qed.

Lemma abs_sub_length (x y d : Series) :
  bind (sub x y) abs = inr d ->
  List.length (values d) = Nat.min (List.length (values x)) (List.length (values y)).
Proof.
  intros H. bind_inv H as r Hr. unfold abs in H. bind_inv H as vs Hvs.
  injection H as <-. cbn [values].
  rewrite (abs_cells_length _ _ Hvs). apply sub_cells_length. now apply sub_values.
Qed.

Lemma well_formed_add_discrepancies (df df' : DataFrame) :
  well_formed df -> add_discrepancies df = inr df' ->
  well_formed df' /\ nrows df' = nrows df.
Proof.
  intros Hwf Hadd.
  destruct (add_discrepancies_inv df df' Hadd)
    as (k0 & k1 & k2 & d01 & d02 & d12 & Hk0 & Hk1 & Hk2 & H01 & H02 & H12 & ->).
  pose proof (well_formed_get _ _ _ Hwf Hk0) as L0.
  pose proof (well_formed_get _ _ _ Hwf Hk1) as L1.
  pose proof (well_formed_get _ _ _ Hwf Hk2) as L2.
  apply abs_sub_length in H01, H02, H12.
  split; [|reflexivity].
  repeat apply well_formed_set_col; try exact Hwf; cbn [set_col nrows];
    try (rewrite ?H01, ?H02, ?H12, ?L0, ?L1, ?L2; apply Nat.min_id).
  apply nunique_is_one_length.
Qed.

(** X7. Every column of the dataset has exactly one value per record: this
    holds for the assembled (and filtered) dataset, and the discrepancy
    stage keeps it while adding its four columns without changing the
    number of records; in particular each computed field is present for
    every record. *)
Theorem dataset_well_formed (items : Py.dict ExtractedFile)
        (dfs : list DataFrame) (country : string) (df : DataFrame) :
  load items = inr dfs ->
  assemble dfs country = inr df ->
  well_formed df
  /\ forall df',
       add_discrepancies df = inr df' ->
       well_formed df' /\ nrows df' = nrows df
       /\ forall c i, In c (DIFF_COLS ++ ["All_Match"]) -> (i < nrows df)%nat ->
                      exists v, cell_at df' c i = Some v.
Proof.
  intros Hload Hasm.
  pose proof (well_formed_assemble _ _ _ (well_formed_load _ _ Hload) Hasm) as Hwf.
  split; [exact Hwf|]. intros df' Hadd.
  destruct (well_formed_add_discrepancies df df' Hwf Hadd) as [Hwf' Hn].
  split; [exact Hwf'|]. split; [exact Hn|].
  intros c i Hc Hi.
  assert (Hcol : exists s, get_col df' c = inr s).
  { destruct (add_discrepancies_inv df df' Hadd)
      as (k0 & k1 & k2 & d01 & d02 & d12 & _ & _ & _ & _ & _ & _ & ->).
    simpl in Hc.
    destruct Hc as [<-|[<-|[<-|[<-|[]]]]];
      rewrite !get_col_set_col; eval_eqb; eexists; reflexivity. }
  destruct Hcol as (s & Hs).
  pose proof (well_formed_get _ _ _ Hwf' Hs) as Hlen.
  unfold cell_at. unfold get_col in Hs.
  destruct (Py.dict_get c (cols df')) as [s'|]; [|discriminate].
  injection Hs as ->.
  destruct (nth_error (values s) i) as [v|] eqn:Hnth; [now exists v|].
  apply nth_error_None in Hnth. lia.
Qed.





Lemma load_rows (items : Py.dict ExtractedFile) (dfs : list DataFrame) :
  load items = inr dfs ->
  list_sum (map nrows dfs) = list_sum (map (fun kv => sheet_rows (snd kv)) items).
Proof.
  intros H. apply load_inv in H.
  induction H as [|[m file] d items dfs (d0 & Hread & ->) _ IH]; simpl;
    [reflexivity|].
  rewrite IH. f_equal. unfold sheet_rows. cbn [fst snd] in *.
  destruct (content file) as [s|e]; simpl in Hread; [|discriminate].
  now injection Hread as <-.
Qed.



(** ** The country filter and the empty dataset *)

Lemma select_map_filter {A} (p : A -> bool) (l : list A) :
  select (map p l) l = filter p l.
Proof.
  induction l as [|x l IH]; simpl; [reflexivity|].
  destruct (p x); now rewrite IH.
Qed.

Lemma eq_str_true (country : string) (v : cell) :
  eq_str country v = true -> v = Text country.
Proof.
  destruct v; simpl; try discriminate. intros H. apply String.eqb_eq in H. now subst.
Qed.

(** X9. With a country filter the dataset keeps exactly the records whose
    country is the filter value, in their order: every record kept has
    that country, their number is the number of such records before
    filtering, and each column is the unfiltered column restricted to
    those records. *)
Theorem country_filter_keeps_matches (items : Py.dict ExtractedFile)
        (dfs : list DataFrame) (country : string) (df0 df : DataFrame) :
  load items = inr dfs ->
  assemble dfs "All Countries" = inr df0 ->
  String.eqb country "All Countries" = false ->
  assemble dfs country = inr df ->
  exists c0,
    get_col df0 "Country" = inr c0
    /\ nrows df = List.length (filter (eq_str country) (values c0))
    /\ (forall i, (i < nrows df)%nat ->
                  cell_at df "Country" i = Some (Text country))
    /\ (forall c s0, Py.dict_get c (cols df0) = Some s0 ->
          exists s, Py.dict_get c (cols df) = Some s
                    /\ values s = select (map (eq_str country) (values c0))
                                         (values s0)).
Proof.
  intros Hload H0 Hc Hasm.
  destruct (assemble_filter dfs country df0 H0 Hc) as (c0 & Hc0 & Hf).
  rewrite Hf in Hasm. injection Hasm as <-.
  pose proof (well_formed_assemble _ _ _ (well_formed_load _ _ Hload) H0) as Hwf.
  pose proof (well_formed_get _ _ _ Hwf Hc0) as Hlen.
  exists c0. split; [exact Hc0|].
  assert (Hn : nrows (filter_rows df0 (map (eq_str country) (values c0)))
               = List.length (filter (eq_str country) (values c0))).
  { unfold filter_rows. cbn [nrows].
    rewrite <- (select_map_filter (eq_str country) (values c0)).
    apply select_length. now rewrite length_seq. }
  split; [exact Hn|]. split.
  - intros i Hi. unfold cell_at. rewrite get_filter_rows.
    unfold get_col in Hc0.
    destruct (Py.dict_get "Country" (cols df0)) as [c0'|]; [|discriminate].
    injection Hc0 as ->. cbn [option_map values].
    rewrite select_map_filter.
    apply nth_error_all_equal; [|now rewrite <- Hn].
    intros v Hv. apply filter_In in Hv. now apply eq_str_true.
  - intros c s0 Hs0. rewrite get_filter_rows, Hs0. cbn [option_map].
    eexists. split; reflexivity.
Qed.

Lemma country_filter_keeps_matches_witness :
  exists dfs df0 df,
    load two_country_items = inr dfs
    /\ assemble dfs "All Countries" = inr df0
    /\ assemble dfs "France" = inr df
    /\ nrows df0 = 3%nat /\ nrows df = 2%nat
    /\ cell_at df (KPI 0) 1 = Some (Num 4).
Proof.
  destruct (load two_country_items) as [e|dfs] eqn:Hload; [discriminate|].
  destruct (assemble dfs "All Countries") as [e|df0] eqn:H0;
    [vm_compute in Hload; injection Hload as <-; discriminate|].
  destruct (assemble dfs "France") as [e|df] eqn:H1;
    [vm_compute in Hload; injection Hload as <-; discriminate|].
  destruct (country_filter_keeps_matches two_country_items dfs "France" df0 df
              Hload H0 eq_refl H1) as (c0 & Hc0 & Hn & _).
  exists dfs, df0, df. split; [reflexivity|]. split; [exact H0|].
  split; [exact H1|].
  vm_compute in Hload. injection Hload as <-.
  vm_compute in H0. injection H0 as <-.
  vm_compute in H1. injection H1 as <-.
  split; [reflexivity|]. split; reflexivity.
Defined.

Lemma dataset_well_formed_witness :
  exists dfs df,
    load two_country_items = inr dfs
    /\ assemble dfs "Spain" = inr df
    /\ well_formed df.
Proof.
  destruct (load two_country_items) as [e|dfs] eqn:Hload; [discriminate|].
  destruct (assemble dfs "Spain") as [e|df] eqn:H1;
    [vm_compute in Hload; injection Hload as <-; discriminate|].
  exists dfs, df. split; [reflexivity|]. split; [exact H1|].
  exact (proj1 (dataset_well_formed two_country_items dfs "Spain" df Hload H1)).
Defined.


Lemma select_all_false {A} (mask : list bool) (l : list A) :
  (forall b, In b mask -> b = false) -> select mask l = [].
Proof.
  revert l. induction mask as [|b mask IH]; intros [|x l] H; simpl; try reflexivity.
  rewrite (H b (or_introl eq_refl)). apply IH. intros b' Hb'. apply H. now right.
Qed.

(** The answer of the pipeline when the dataset is empty. *)
Lemma run_no_data (files : list ExtractedFile) (y : Z) (country : string)
      (dfs : list DataFrame) (df : DataFrame) :
  load (year_files files y) = inr dfs ->
  assemble dfs country = inr df ->
  empty df = true ->
  run_comparison_pipeline (Extracted files) y country
  = (None, None,
     Some ("No data found for " ++ country ++ " in " ++ Py.str y ++ ".")%string).
Proof.
  intros Hload Hasm Hempty. unfold run_comparison_pipeline, pipeline_body.
  destruct (year_files files y) as [|kv yf] eqn:Hyf.
  { simpl in Hload. injection Hload as <-. discriminate Hasm. }
  rewrite Hload. cbn [bind]. rewrite Hasm. cbn [bind]. rewrite Hempty. reflexivity.
Qed.

(** X10. A country that no record of the selected files carries gives the
    no-data answer naming the country and the year; neither a bundle nor a
    summary is returned. *)
Theorem unknown_country_no_data (files : list ExtractedFile) (y : Z)
        (country : string) (dfs : list DataFrame) (df0 : DataFrame) :
  load (year_files files y) = inr dfs ->
  assemble dfs "All Countries" = inr df0 ->
  String.eqb country "All Countries" = false ->
  (forall i, cell_at df0 "Country" i <> Some (Text country)) ->
  run_comparison_pipeline (Extracted files) y country
  = (None, None,
     Some ("No data found for " ++ country ++ " in " ++ Py.str y ++ ".")%string).
Proof.
  intros Hload H0 Hc Hnone.
  destruct (assemble_filter dfs country df0 H0 Hc) as (c0 & Hc0 & Hf).
  apply (run_no_data files y country dfs _ Hload Hf).
  unfold empty, filter_rows. cbn [nrows cols].
  rewrite select_all_false; [reflexivity|].
  intros b Hb. apply in_map_iff in Hb. destruct Hb as (v & <- & Hv).
  destruct (eq_str country v) eqn:He; [|reflexivity].
  apply eq_str_true in He. subst v.
  apply In_nth_error in Hv. destruct Hv as (i & Hi).
  exfalso. apply (Hnone i). unfold cell_at. unfold get_col in Hc0.
  destruct (Py.dict_get "Country" (cols df0)) as [c0'|]; [|discriminate].
  injection Hc0 as ->. exact Hi.
Qed.

Lemma unknown_country_no_data_witness :
  run_comparison_pipeline (Extracted two_country_archive) 2023 "Italy"
  = (None, None, Some "No data found for Italy in 2023.").
Proof.
  destruct (load (year_files two_country_archive 2023)) as [e|dfs] eqn:Hload;
    [discriminate|].
  destruct (assemble dfs "All Countries") as [e|df0] eqn:H0;
    [vm_compute in Hload; injection Hload as <-; discriminate|].
  apply (unknown_country_no_data two_country_archive 2023 "Italy" dfs df0 Hload H0
           eq_refl).
  vm_compute in Hload. injection Hload as <-.
  vm_compute in H0. injection H0 as <-.
  intros [|[|[|i]]]; vm_compute; try discriminate.
  destruct i; discriminate.
Defined.

(** X11. When the sheets of all selected files have no data rows, the
    pipeline gives the no-data answer, with or without a country filter. *)
Theorem empty_sheets_no_data (files : list ExtractedFile) (y : Z)
        (country : string) (dfs : list DataFrame) (df : DataFrame) :
  load (year_files files y) = inr dfs ->
  assemble dfs country = inr df ->
  (forall m file, In (m, file) (year_files files y) -> sheet_rows file = 0%nat) ->
  run_comparison_pipeline (Extracted files) y country
  = (None, None,
     Some ("No data found for " ++ country ++ " in " ++ Py.str y ++ ".")%string).
Proof.
  intros Hload Hasm Hrows.
  apply (run_no_data files y country dfs df Hload Hasm).
  assert (Hsum : list_sum (map nrows dfs) = 0%nat).
  { rewrite (load_rows _ _ Hload).
    assert (Hzero : forall l : Py.dict ExtractedFile,
               (forall m file, In (m, file) l -> sheet_rows file = 0%nat) ->
               list_sum (map (fun kv => sheet_rows (snd kv)) l) = 0%nat).
    { induction l as [|[m file] l IH]; simpl; intros Hl; [reflexivity|].
      rewrite (Hl m file (or_introl eq_refl)).
      apply IH. intros m' f' Hin. apply (Hl m' f'). now right. }
    apply Hzero, Hrows. }
  unfold assemble in Hasm. bind_inv Hasm as df1 Hcat.
  pose proof (concat_inv _ _ Hcat) as Hdf1.
  assert (Hn : nrows (if has_col df1 "Country" then df1
                      else set_scalar df1 "Country" "Unknown") = 0%nat).
  { destruct (has_col df1 "Country"); rewrite Hdf1; exact Hsum. }
  unfold empty. apply orb_true_intro. left. apply Nat.eqb_eq.
  destruct (String.eqb country "All Countries").
  - injection Hasm as <-. exact Hn.
  - bind_inv Hasm as c Hc. injection Hasm as <-.
    unfold filter_rows. cbn [nrows]. rewrite Hn.
    generalize (map (eq_str country) (values c)). intros [|b mask]; reflexivity.
Qed.

Lemma empty_sheets_no_data_witness :
  run_comparison_pipeline (Extracted header_only_archive) 2023 "All Countries"
  = (None, None, Some "No data found for All Countries in 2023.").
Proof.
  destruct (load (year_files header_only_archive 2023)) as [e|dfs] eqn:Hload;
    [discriminate|].
  destruct (assemble dfs "All Countries") as [e|df] eqn:H0;
    [vm_compute in Hload; injection Hload as <-; discriminate|].
  apply (empty_sheets_no_data header_only_archive 2023 "All Countries" dfs df
           Hload H0).
  intros m file [[= <- <-]|[]]. reflexivity.
Defined.

(** ** Failures while loading and computing *)

(** The answer of the pipeline when the discrepancy stage raises. *)
Lemma run_discrepancy_error (files : list ExtractedFile) (y : Z) (country : string)
      (dfs : list DataFrame) (df : DataFrame) (e : string) :
  load (year_files files y) = inr dfs ->
  assemble dfs country = inr df ->
  empty df = false ->
  add_discrepancies df = inl e ->
  run_comparison_pipeline (Extracted files) y country
  = (None, None, Some ("Processing error: " ++ e)%string).
Proof.
  intros Hload Hasm Hempty Hadd. unfold run_comparison_pipeline, pipeline_body.
  destruct (year_files files y) as [|kv yf] eqn:Hyf.
  { simpl in Hload. injection Hload as <-. discriminate Hasm. }
  rewrite Hload. cbn [bind]. rewrite Hasm. cbn [bind]. rewrite Hempty, Hadd.
  reflexivity.
Qed.

Lemma has_col_false_get (df : DataFrame) (c : string) :
  has_col df c = false -> get_col df c = inl (KeyError c).
Proof.
  unfold has_col, get_col. destruct (Py.dict_get c (cols df)); [discriminate|reflexivity].
Qed.

Lemma has_col_true_get (df : DataFrame) (c : string) :
  has_col df c = true -> exists s, get_col df c = inr s.
Proof.
  unfold has_col, get_col. destruct (Py.dict_get c (cols df)) as [s|];
    [now exists s|discriminate].
Qed.

(** X12. A dataset without one of the three KPI columns makes the pipeline
    fail with a processing error. When the first column is absent, or the
    second while the first is there, the cause is the quoted name of that
    column (the text of the [KeyError]). *)
Theorem missing_kpi_column_error (files : list ExtractedFile) (y : Z)
        (country : string) (dfs : list DataFrame) (df : DataFrame) :
  load (year_files files y) = inr dfs ->
  assemble dfs country = inr df ->
  empty df = false ->
  (has_col df (KPI 0) = false ->
   run_comparison_pipeline (Extracted files) y country
   = (None, None, Some "Processing error: 'Reported Value to Regulator'"))
  /\ (has_col df (KPI 0) = true -> has_col df (KPI 1) = false ->
      run_comparison_pipeline (Extracted files) y country
      = (None, None, Some "Processing error: 'Reported Value to Group'"))
  /\ (has_col df (KPI 2) = false ->
      exists cause,
        run_comparison_pipeline (Extracted files) y country
        = (None, None, Some ("Processing error: " ++ cause)%string)).
Proof.
  intros Hload Hasm Hempty. split; [|split].
  - intros H0.
    apply (run_discrepancy_error files y country dfs df _ Hload Hasm Hempty).
    unfold add_discrepancies, abs_diff. now rewrite (has_col_false_get _ _ H0).
  - intros H0 H1.
    apply (run_discrepancy_error files y country dfs df _ Hload Hasm Hempty).
    unfold add_discrepancies, abs_diff.
    destruct (has_col_true_get _ _ H0) as (s0 & ->).
    now rewrite (has_col_false_get _ _ H1).
  - intros H2.
    destruct (add_discrepancies df) as [e|df'] eqn:Hadd.
    + exists e.
      exact (run_discrepancy_error files y country dfs df e Hload Hasm Hempty Hadd).
    + destruct (add_discrepancies_inv df df' Hadd)
        as (k0 & k1 & k2 & _ & _ & _ & _ & _ & Hk2 & _).
      rewrite (has_col_false_get _ _ H2) in Hk2. discriminate.
Qed.

Lemma missing_kpi_column_error_witness :
  run_comparison_pipeline (Extracted missing_column_archive) 2023 "All Countries"
  = (None, None, Some "Processing error: 'Reported Value to Group'").
Proof.
  destruct (load (year_files missing_column_archive 2023)) as [e|dfs] eqn:Hload;
    [discriminate|].
  destruct (assemble dfs "All Countries") as [e|df] eqn:H0;
    [vm_compute in Hload; injection Hload as <-; discriminate|].
  assert (Hdf : empty df = false /\ has_col df (KPI 0) = true
                /\ has_col df (KPI 1) = false).
  { vm_compute in Hload. injection Hload as <-.
    vm_compute in H0. injection H0 as <-. repeat split. }
  destruct Hdf as (He & Hk0 & Hk1).
  exact (proj1 (proj2 (missing_kpi_column_error missing_column_archive 2023
                         "All Countries" dfs df Hload H0 He)) Hk0 Hk1).
Defined.

Lemma load_unreadable (items : Py.dict ExtractedFile) :
  (exists m file err, In (m, file) items /\ content file = Unreadable err) ->
  exists cause,
    load items = inl cause
    /\ exists m file, In (m, file) items /\ content file = Unreadable cause.
Proof.
  induction items as [|[m0 f0] items IH]; intros (m & file & err & Hin & Hc).
  - destruct Hin.
  - simpl. destruct (content f0) as [s|e0] eqn:Hc0; simpl.
    + destruct Hin as [[= <- <-]|Hin]; [congruence|].
      destruct (IH (ex_intro _ m (ex_intro _ file (ex_intro _ err (conj Hin Hc)))))
        as (cause & Hl & m' & f' & Hin' & Hc').
      exists cause. rewrite Hl. split; [reflexivity|].
      exists m', f'. split; [now right|exact Hc'].
    + exists e0. split; [reflexivity|]. exists m0, f0. split; [now left|exact Hc0].
Qed.

(** X13. When one of the selected files cannot be read as a workbook, the
    pipeline fails with a processing error whose cause is the message of
    an unreadable selected file; the files that were read are not
    reported. *)
Theorem unreadable_workbook_error (files : list ExtractedFile) (y : Z)
        (country : string) (m : string) (file : ExtractedFile) (err : string) :
  In (m, file) (year_files files y) ->
  content file = Unreadable err ->
  exists cause,
    run_comparison_pipeline (Extracted files) y country
    = (None, None, Some ("Processing error: " ++ cause)%string)
    /\ exists m' file', In (m', file') (year_files files y)
                        /\ content file' = Unreadable cause.
Proof.
  intros Hin Hc.
  destruct (load_unreadable (year_files files y)
              (ex_intro _ m (ex_intro _ file (ex_intro _ err (conj Hin Hc)))))
    as (cause & Hload & Hsrc).
  exists cause. split; [|exact Hsrc].
  unfold run_comparison_pipeline, pipeline_body.
  destruct (year_files files y) as [|kv yf]; [destruct Hin|].
  rewrite Hload. reflexivity.
Qed.

Lemma unreadable_workbook_error_witness :
  exists cause,
    run_comparison_pipeline (Extracted half_readable_archive) 2023 "All Countries"
    = (None, None, Some ("Processing error: " ++ cause)%string).
Proof.
  destruct (unreadable_workbook_error half_readable_archive 2023 "All Countries"
              "Feb" (mkFile (mkPath "" "Feb2023.xlsx")
                            (Unreadable "Excel file format cannot be determined"))
              "Excel file format cannot be determined"
              (or_intror (or_introl eq_refl)) eq_refl) as (cause & Hrun & _).
  exists cause. exact Hrun.
Defined.

(** X14. The error message of a failed run has one of three forms: no
    files for the year, no data for the country in the year, or the
    processing error followed by a cause; it is never the empty string,
    and it comes with neither a bundle nor a summary. *)
Theorem error_message_forms (zip_bytes : Extraction) (y : Z) (country : string)
        (plots : option (Py.dict Figure)) (s : option Summary) (msg : string) :
  run_comparison_pipeline zip_bytes y country = (plots, s, Some msg) ->
  plots = None /\ s = None /\ msg <> EmptyString
  /\ (msg = ("No files found for year " ++ Py.str y ++ ".")%string
      \/ msg = ("No data found for " ++ country ++ " in " ++ Py.str y ++ ".")%string
      \/ exists cause, msg = ("Processing error: " ++ cause)%string).
Proof.
  unfold run_comparison_pipeline.
  assert (Hproc : forall e p s' m,
            (@None (Py.dict Figure), @None Summary,
             Some ("Processing error: " ++ e)%string) = (p, s', Some m) ->
            p = None /\ s' = None /\ m <> EmptyString
            /\ (m = ("No files found for year " ++ Py.str y ++ ".")%string
                \/ m = ("No data found for " ++ country ++ " in " ++ Py.str y ++ ".")%string
                \/ exists cause, m = ("Processing error: " ++ cause)%string)).
  { intros e p s' m [= <- <- <-]. repeat split; [discriminate|].
    right. right. now exists e. }
  destruct zip_bytes as [e|files]; [apply Hproc|].
  unfold pipeline_body.
  destruct (year_files files y) as [|kv yf].
  { cbn [ret]. intros [= <- <- <-]. repeat split; [discriminate|now left]. }
  destruct (load (kv :: yf)) as [e|dfs]; cbn [bind]; [apply Hproc|].
  destruct (assemble dfs country) as [e|df]; cbn [bind]; [apply Hproc|].
  destruct (empty df).
  { cbn [ret]. intros [= <- <- <-]. repeat split; [discriminate|right; now left]. }
  destruct (add_discrepancies df) as [e|df']; cbn [bind]; [apply Hproc|].
  destruct (summarize df' y country) as [e|sm]; cbn [bind]; [apply Hproc|].
  destruct (build_plots df' sm) as [e|p]; cbn [bind ret]; [apply Hproc|].
  discriminate.
Qed.

Lemma error_message_forms_witness :
  run_comparison_pipeline (Extracted header_only_archive) 2024 "All Countries"
  = (None, None, Some "No files found for year 2024.")
  /\ "No files found for year 2024." <> EmptyString.
Proof.
  split; [reflexivity|].
  exact (proj1 (proj2 (proj2
           (error_message_forms (Extracted header_only_archive) 2024 "All Countries"
              None None "No files found for year 2024." eq_refl)))).
Defined.

(** ** Differences, averages and the largest difference *)









Lemma mixed_frame_assembled :
  bind (read_excel (Workbook (mkSheet KPI_COLS [[Num 100; Num 100; NaN];
                                                [Num 5; Num 9; Num 7]])))
       (fun d => assemble [set_scalar d "Month" "Jan"] "All Countries")
  = inr mixed_frame.
Proof. reflexivity. Qed.












(** ** The figures *)

(** The first two figures of the bundle. *)
Lemma build_plots_head (df : DataFrame) (s : Summary) (plots : Py.dict Figure) :
  build_plots df s = inr plots ->
  exists ds,
    get_cols df DIFF_COLS = inr ds
    /\ Py.dict_get "agreement_pie" plots
       = Some (Pie ["All Match"; "Mismatch"] [all_match s; mismatch s])
    /\ Py.dict_get "pairwise_diff_bar" plots
       = Some (Bar ["Reg vs Group"; "Reg vs Actual"; "Group vs Actual"]
                   (map mean ds)).
Proof.
  unfold build_plots. intros H.
  bind_inv H as ds Hds. bind_inv H as top Htop.
  bind_inv H as byc Hbyc. bind_inv H as ds' Hds'.
  bind_inv H as bym Hbym. bind_inv H as am Ham.
  injection H as <-. exists ds. repeat split; [exact Hds].
Qed.

(** X17. The charts agree with the summary: the agreement pie shows the
    two counts of the summary, which add up to its total, and the bar
    chart shows its three average differences, in the same order. *)
Theorem charts_match_summary (zip_bytes : Extraction) (y : Z) (country : string)
        (plots : Py.dict Figure) (s : Summary) :
  run_comparison_pipeline zip_bytes y country = (Some plots, Some s, None) ->
  Py.dict_get "agreement_pie" plots
  = Some (Pie ["All Match"; "Mismatch"] [all_match s; mismatch s])
  /\ (all_match s + mismatch s = total s)%Z
  /\ Py.dict_get "pairwise_diff_bar" plots
     = Some (Bar ["Reg vs Group"; "Reg vs Actual"; "Group vs Actual"]
                 [avg_diff_reg_grp s; avg_diff_reg_act s; avg_diff_grp_act s])
  /\ summary_year s = y /\ summary_country s = country.
Proof.
  intros Hrun.
  destruct (pipeline_success _ _ _ _ _ _ Hrun)
    as (files & dfs & df & df' & _ & _ & _ & _ & Hadd & Hsum & Hplots & _).
  destruct (build_plots_head df' s plots Hplots) as (ds & Hds & Hpie & Hbar).
  unfold summarize in Hsum.
  bind_inv Hsum as am Ham. bind_inv Hsum as e01 E01.
  bind_inv Hsum as e02 E02. bind_inv Hsum as e12 E12.
  injection Hsum as <-.
  cbn [get_cols DIFF_COLS] in Hds. rewrite E01, E02, E12 in Hds.
  cbn [bind ret] in Hds. injection Hds as <-.
  cbn [all_match mismatch total avg_diff_reg_grp avg_diff_reg_act
       avg_diff_grp_act summary_year summary_country] in *.
  split; [exact Hpie|]. split; [lia|]. split; [exact Hbar|]. split; reflexivity.
Qed.

Lemma charts_match_summary_witness :
  exists plots s,
    run_comparison_pipeline two_month_archive 2023 "All Countries"
    = (Some plots, Some s, None)
    /\ Py.dict_get "agreement_pie" plots
       = Some (Pie ["All Match"; "Mismatch"] [all_match s; mismatch s]).
Proof.
  eexists. eexists.
  split; [vm_compute; reflexivity|].
  eapply (charts_match_summary two_month_archive 2023 "All Countries").
  vm_compute. reflexivity.
Defined.

(** *** Groups *)

Lemma Qeq_bool_sym (a b : Q) : Qeq_bool a b = Qeq_bool b a.
Proof.
  destruct (Qeq_bool a b) eqn:H1, (Qeq_bool b a) eqn:H2; try reflexivity.
  - apply Qeq_bool_iff in H1. apply Qeq_bool_neq in H2. symmetry in H1. contradiction.
  - apply Qeq_bool_iff in H2. apply Qeq_bool_neq in H1. symmetry in H2. contradiction.
Qed.

Lemma cell_eqb_sym (x y : cell) : cell_eqb x y = cell_eqb y x.
Proof.
  destruct x as [a| |s|b], y as [a'| |s'|b']; simpl; try reflexivity;
    try apply Qeq_bool_sym; try apply String.eqb_sym.
Qed.

Lemma cell_eqb_refl (x : cell) : isna x = false -> cell_eqb x x = true.
Proof.
  destruct x as [a| |s|b]; simpl; intros H; try discriminate.
  - apply Qeq_bool_iff, Qeq_refl.
  - apply String.eqb_refl.
  - destruct b; reflexivity.
Qed.

Lemma cell_eqb_trans (x y z : cell) :
  cell_eqb x y = true -> cell_eqb y z = true -> cell_eqb x z = true.
Proof.
  destruct x as [a| |s|b], y as [a'| |s'|b'], z as [a''| |s''|b'']; simpl;
    try discriminate;
    try (rewrite !String.eqb_eq; congruence);
    rewrite !Qeq_bool_iff; intros H1 H2; now rewrite H1.
Qed.

Lemma unique_In (vs : list cell) (k : cell) : In k (unique vs) -> In k vs.
Proof.
  induction vs as [|v vs IH]; simpl; [tauto|].
  intros [H|H]; [now left|]. apply filter_In in H. right. apply IH, H.
Qed.

Lemma unique_cover (vs : list cell) (v : cell) :
  In v vs -> isna v = false ->
  exists k, In k (unique vs) /\ cell_eqb k v = true.
Proof.
  induction vs as [|v0 vs IH]; simpl; [tauto|].
  intros [->|Hin] Hna.
  - exists v. split; [now left|now apply cell_eqb_refl].
  - destruct (IH Hin Hna) as (k & Hk & Hkv).
    destruct (cell_eqb v0 k) eqn:H0.
    + exists v0. split; [now left|]. eapply cell_eqb_trans; eassumption.
    + exists k. split; [|exact Hkv]. right. apply filter_In.
      split; [exact Hk|]. now rewrite H0.
Qed.





Lemma sort_by_length {A} (ltb : A -> A -> bool) (l : list A) :
  List.length (sort_by ltb l) = List.length l.
Proof.
  induction l as [|x l IH]; simpl; [reflexivity|]. rewrite <- IH.
  generalize (sort_by ltb l). intros s. induction s as [|y s IHs]; simpl; [reflexivity|].
  destruct (ltb y x); simpl; [now rewrite IHs|reflexivity].
Qed.






(** *** The trend *)









(** ** The HTTP boundary *)

(** The two shapes of a result, with a message that is not empty. *)
Lemma run_cases (zip_bytes : Extraction) (y : Z) (country : string) :
  (exists plots s,
     run_comparison_pipeline zip_bytes y country = (Some plots, Some s, None))
  \/ (exists c0 msg,
        run_comparison_pipeline zip_bytes y country
        = (None, None, Some (String c0 msg))).
Proof.
  unfold run_comparison_pipeline. destruct zip_bytes as [e|files].
  - right. eexists. eexists. reflexivity.
  - unfold pipeline_body.
    destruct (year_files files y) as [|kv yf];
      [right; eexists; eexists; reflexivity|].
    destruct (load (kv :: yf)) as [e|dfs];
      [right; eexists; eexists; reflexivity|].
    cbn [bind].
    destruct (assemble dfs country) as [e|df];
      [right; eexists; eexists; reflexivity|].
    cbn [bind].
    destruct (empty df); [right; eexists; eexists; reflexivity|].
    destruct (add_discrepancies df) as [e|df'];
      [right; eexists; eexists; reflexivity|].
    cbn [bind].
    destruct (summarize df' y country) as [e|s];
      [right; eexists; eexists; reflexivity|].
    cbn [bind].
    destruct (build_plots df' s) as [e|plots];
      [right; eexists; eexists; reflexivity|].
    left. exists plots, s. reflexivity.
Qed.

Section BoundaryFacts.
Variable int : string -> option Z.

(** X20. The route answers 200 exactly when the request has a file with a
    non-empty name and a non-empty year that [int] accepts, and the
    pipeline run on that file, that year and the requested country (or
    ["All Countries"] when none is given) returns a bundle and a summary,
    which are then the body. Every other request is answered 400 with an
    error message that is not empty; no other status is ever returned. *)
Theorem compare_kpis_response (request : Request) :
  (snd (compare_kpis int request) = 200%Z
   <-> exists zip_file c0 rest year plots s,
         Py.dict_get "file" (request_files request) = Some zip_file
         /\ filename zip_file <> EmptyString
         /\ Py.dict_get "year" (request_form request) = Some (String c0 rest)
         /\ int (String c0 rest) = Some year
         /\ run_comparison_pipeline (upload zip_file) year (form_country request)
            = (Some plots, Some s, None)
         /\ fst (compare_kpis int request) = ResultBody (Some s) (Some plots))
  /\ (snd (compare_kpis int request) <> 200%Z ->
      snd (compare_kpis int request) = 400%Z
      /\ exists e0 e, fst (compare_kpis int request) = ErrorBody (String e0 e)).
Proof.
  unfold compare_kpis.
  destruct (Py.dict_get "file" (request_files request)) as [zip_file|].
  2:{ split; [split; [discriminate|intros (z & _ & _ & _ & _ & _ & H & _); discriminate]|].
      intros _. split; [reflexivity|]. eexists. eexists. reflexivity. }
  destruct (String.eqb_spec (filename zip_file) "") as [Hname|Hname].
  { split; [split; [discriminate|]|].
    - intros (z & _ & _ & _ & _ & _ & [= <-] & Hn & _). contradiction.
    - intros _. split; [reflexivity|]. eexists. eexists. reflexivity. }
  destruct (Py.dict_get "year" (request_form request)) as [[|c0 rest]|].
  1,3: (split; [split; [discriminate|]|];
        [intros (z & ? & ? & ? & ? & ? & _ & _ & H & _); discriminate
        |intros _; split; [reflexivity|]; eexists; eexists; reflexivity]).
  destruct (int (String c0 rest)) as [year|] eqn:Hint.
  2:{ split; [split; [discriminate|]|].
      - intros (z & ? & ? & ? & ? & ? & _ & _ & [= <- <-] & H & _). congruence.
      - intros _. split; [reflexivity|]. eexists. eexists. reflexivity. }
  destruct (run_cases (upload zip_file) year (form_country request))
    as [(plots & s & Hrun)|(e0 & msg & Hrun)]; rewrite Hrun; cbn [fst snd].
  - split; [|intros H; now contradiction H].
    split; [intros _|reflexivity].
    exists zip_file, c0, rest, year, plots, s. repeat split; assumption.
  - split; [split; [discriminate|]|].
    + intros (z & ? & ? & y' & p & s & [= <-] & _ & [= <- <-] & Hy & Hr & _).
      rewrite Hint in Hy. injection Hy as <-. rewrite Hrun in Hr. discriminate.
    + intros _. split; [reflexivity|]. exists e0, msg. reflexivity.
Qed.

(** X21. A request for a year below 1000 is always refused: when the
    archive can be extracted the answer is 400 with the message that no
    files were found for that year. *)
Theorem compare_kpis_small_year (request : Request) (zip_file : Upload)
        (files : list ExtractedFile) (c0 : ascii) (rest : string) (year : Z) :
  Py.dict_get "file" (request_files request) = Some zip_file ->
  filename zip_file <> EmptyString ->
  upload zip_file = Extracted files ->
  Py.dict_get "year" (request_form request) = Some (String c0 rest) ->
  int (String c0 rest) = Some year ->
  (year < 1000)%Z ->
  compare_kpis int request
  = (ErrorBody ("No files found for year " ++ Py.str year ++ ".")%string, 400%Z).
Proof.
  intros Hfile Hname Hup Hyear Hint Hlt. unfold compare_kpis.
  rewrite Hfile. destruct (String.eqb_spec (filename zip_file) ""); [contradiction|].
  rewrite Hyear, Hint, Hup.
  assert (Hrun : run_comparison_pipeline (Extracted files) year (form_country request)
                 = (None, None,
                    Some ("No files found for year " ++ Py.str year ++ ".")%string)).
  { apply no_files_error. unfold year_files. apply fold_step_unselected.
    intros f _. now apply selected_below_1000. }
  rewrite Hrun. reflexivity.
Qed.

End BoundaryFacts.

Lemma compare_kpis_response_witness :
  snd (compare_kpis decimal_int (sample_request "2023")) = 200%Z
  /\ snd (compare_kpis decimal_int (sample_request "2024")) = 400%Z.
Proof.
  split; [vm_compute; reflexivity|].
  apply (proj2 (compare_kpis_response decimal_int (sample_request "2024"))).
  vm_compute. discriminate.
Defined.

Lemma compare_kpis_small_year_witness :
  compare_kpis decimal_int (sample_request "999")
  = (ErrorBody "No files found for year 999.", 400%Z).
Proof.
  eapply (compare_kpis_small_year decimal_int (sample_request "999")
           (mkUpload "reports.zip" two_month_archive) _ "9" "99" 999);
    [reflexivity | discriminate | reflexivity | reflexivity | reflexivity | lia].
Defined.

(** ** Records with missing values *)

Lemma filter_nil_iff {A} (p : A -> bool) (l : list A) :
  filter p l = [] <-> forall x, In x l -> p x = false.
Proof.
  induction l as [|y l IH]; simpl; [split; [intros _ x []|reflexivity]|].
  destruct (p y) eqn:Hy.
  - split; [discriminate|]. intros H. specialize (H y (or_introl eq_refl)). congruence.
  - rewrite IH. split.
    + intros H x [<-|Hx]; auto.
    + intros H x Hx. apply H. now right.
Qed.

(** One distinct value: the list is not empty and its entries are equal. *)
Lemma unique_one (vs : list cell) :
  (forall v, In v vs -> isna v = false) ->
  (List.length (unique vs) = 1%nat
   <-> vs <> [] /\ forall u w, In u vs -> In w vs -> cell_eqb u w = true).
Proof.
  intros Hna. destruct vs as [|v vs]; simpl.
  - split; [discriminate|intros [H _]; congruence].
  - split.
    + intros H. split; [discriminate|].
      assert (Hnil : filter (fun w => negb (cell_eqb v w)) (unique vs) = [])
        by (destruct (filter _ _); [reflexivity|discriminate]).
      rewrite filter_nil_iff in Hnil.
      assert (Hv : forall w, In w (v :: vs) -> cell_eqb v w = true).
      { intros w [<-|Hw]; [apply cell_eqb_refl, Hna; now left|].
        destruct (unique_cover vs w Hw (Hna w (or_intror Hw))) as (k & Hk & Hkw).
        specialize (Hnil k Hk). apply negb_false_iff in Hnil.
        eapply cell_eqb_trans; eassumption. }
      intros u w Hu Hw. eapply cell_eqb_trans; [|exact (Hv w Hw)].
      rewrite cell_eqb_sym. exact (Hv u Hu).
    + intros [_ Heq].
      assert (Hnil : filter (fun w => negb (cell_eqb v w)) (unique vs) = []).
      { apply filter_nil_iff. intros k Hk. apply unique_In in Hk.
        rewrite (Heq v k (or_introl eq_refl) (or_intror Hk)). reflexivity. }
      now rewrite Hnil.
Qed.

Lemma sub_cell_missing (x y d : cell) :
  sub_cell x y = inr d -> (d = NaN <-> x = NaN \/ y = NaN)
                          /\ (d = NaN \/ exists q, d = Num q).
Proof.
  unfold sub_cell. destruct x as [a| |s|b], y as [a'| |s'|b']; simpl;
    intros H; try discriminate; injection H as <-;
    (split; [split; [try discriminate; auto
                    |intros [H|H]; try discriminate; reflexivity]
            |try (now left); right; eexists; reflexivity]).
Qed.

Lemma abs_cell_missing (v r : cell) :
  abs_cell v = inr r -> (v = NaN \/ exists q, v = Num q) -> (r = NaN <-> v = NaN).
Proof.
  intros H [->|(q & ->)]; simpl in H; injection H as <-; split;
    congruence || discriminate || auto.
Qed.

Lemma abs_sub_missing (x y s : Series) (i : nat) (vx vy : cell) :
  bind (sub x y) abs = inr s ->
  nth_error (values x) i = Some vx -> nth_error (values y) i = Some vy ->
  exists d, nth_error (values s) i = Some d
            /\ (d = NaN <-> vx = NaN \/ vy = NaN).
Proof.
  intros H Hx Hy. bind_inv H as r Hr. unfold abs in H. bind_inv H as vs Hvs.
  injection H as <-. cbn [values]. apply sub_values in Hr.
  destruct (sub_cells_nth _ _ _ _ _ _ Hr Hx Hy) as (d0 & Hd0 & Hsub).
  destruct (abs_cells_nth _ _ _ _ Hvs Hd0) as (d & Hd & Habs).
  destruct (sub_cell_missing _ _ _ Hsub) as [Hm Hshape].
  exists d. split; [exact Hd|].
  rewrite (abs_cell_missing _ _ Habs Hshape). exact Hm.
Qed.

(** X22. For every record, whatever its cells hold: a difference is missing
    exactly when one of its two KPI values is missing, and the agreement
    flag is true exactly when at least one KPI value is present and all
    the present values are equal. So a record with a blank among equal
    values is flagged as matching, and a record whose three values are
    blank is not. *)
Theorem discrepancies_with_missing (df df' : DataFrame) (i : nat) (x y z : cell) :
  add_discrepancies df = inr df' ->
  (i < nrows df)%nat ->
  cell_at df (KPI 0) i = Some x ->
  cell_at df (KPI 1) i = Some y ->
  cell_at df (KPI 2) i = Some z ->
  (exists d1 d2 d3,
     cell_at df' "Diff_Reg_vs_Grp" i = Some d1
     /\ cell_at df' "Diff_Reg_vs_Act" i = Some d2
     /\ cell_at df' "Diff_Grp_vs_Act" i = Some d3
     /\ (d1 = NaN <-> x = NaN \/ y = NaN)
     /\ (d2 = NaN <-> x = NaN \/ z = NaN)
     /\ (d3 = NaN <-> y = NaN \/ z = NaN))
  /\ exists flag,
       cell_at df' "All_Match" i = Some (Bool flag)
       /\ (flag = true
           <-> (exists v, In v [x; y; z] /\ isna v = false)
               /\ forall u w, In u [x; y; z] -> In w [x; y; z] ->
                              isna u = false -> isna w = false ->
                              cell_eqb u w = true).
Proof.
  intros Hadd Hi Hx Hy Hz.
  destruct (add_discrepancies_inv df df' Hadd)
    as (k0 & k1 & k2 & d01 & d02 & d12 & Hk0 & Hk1 & Hk2 & H01 & H02 & H12 & ->).
  apply cell_at_get_col in Hx, Hy, Hz.
  destruct Hx as (s0 & Hs0 & Hx), Hy as (s1 & Hs1 & Hy), Hz as (s2 & Hs2 & Hz).
  rewrite Hk0 in Hs0. injection Hs0 as <-.
  rewrite Hk1 in Hs1. injection Hs1 as <-.
  rewrite Hk2 in Hs2. injection Hs2 as <-.
  rewrite !cell_at_set_col. eval_eqb.
  destruct (abs_sub_missing _ _ _ _ _ _ H01 Hx Hy) as (d1 & E1 & M1).
  destruct (abs_sub_missing _ _ _ _ _ _ H02 Hx Hz) as (d2 & E2 & M2).
  destruct (abs_sub_missing _ _ _ _ _ _ H12 Hy Hz) as (d3 & E3 & M3).
  split; [exists d1, d2, d3; repeat split; first [assumption | tauto]|].
  exists (nunique [x; y; z] =? 1)%nat. split.
  - unfold nunique_is_one. cbn [values].
    rewrite (nth_error_map_seq
               (fun j => Bool (nunique (row_at [k0; k1; k2] j) =? 1)%nat) _ _ Hi).
    unfold row_at. cbn [map].
    now rewrite (nth_error_nth _ _ NaN Hx), (nth_error_nth _ _ NaN Hy),
                (nth_error_nth _ _ NaN Hz).
  - unfold nunique. rewrite Nat.eqb_eq.
    set (present := filter (fun c => negb (isna c)) [x; y; z]).
    assert (Hp : forall v, In v present <-> In v [x; y; z] /\ isna v = false).
    { intros v. unfold present. rewrite filter_In, negb_true_iff. tauto. }
    rewrite unique_one by (intros v Hv; now apply Hp in Hv).
    split.
    + intros [Hne Heq]. split.
      * destruct present as [|v l] eqn:Hpr; [congruence|].
        exists v. apply Hp. now left.
      * intros u w Hu Hw Nu Nw. apply Heq; apply Hp; now split.
    + intros [(v & Hv & Nv) Heq]. split.
      * intros Hnil. assert (In v present) by (apply Hp; now split).
        rewrite Hnil in H. destruct H.
      * intros u w Hu Hw. apply Hp in Hu, Hw. apply Heq; tauto.
Qed.

Lemma discrepancies_with_missing_witness :
  exists df',
    add_discrepancies mixed_frame = inr df'
    /\ cell_at df' "All_Match" 0 = Some (Bool true)
    /\ cell_at df' "Diff_Reg_vs_Act" 0 = Some NaN.
Proof.
  destruct (add_discrepancies mixed_frame) as [e|df'] eqn:Hadd;
    [vm_compute in Hadd; discriminate|].
  destruct (discrepancies_with_missing mixed_frame df' 0%nat
              (Num 100) (Num 100) NaN Hadd (Nat.lt_0_succ 1)
              eq_refl eq_refl eq_refl) as [_ (flag & Hflag & _)].
  exists df'. split; [reflexivity|].
  vm_compute in Hadd. injection Hadd as <-. split; reflexivity.
Defined.
